(** * MacroAI image-to-3D pipeline: a shallow embedding and its properties

    The development follows the Python sources
    [image_to_3d_pipeline.py], [simple_3d_pipeline.py], [process_images.py]
    and [create_medical_assets.py].  Python values that travel over the wire
    are JSON trees, Python exceptions are an explicit outcome, and every
    effect (socket traffic, image loading, file system, sleeping) is an
    event appended to a trace, answered by an oracle that sees the whole
    history.  The pure functions of the libraries the sources call (JSON
    and UTF-8 decoding, path handling, OpenCV, PIL) are the fields of a
    record the pipelines are parameterised by. *)

From Stdlib Require Import ZArith List String Ascii Bool Lia PrimFloat.
From Stdlib Require Import Strings.Byte.
From Stdlib Require Uint63.
From Stdlib Require Import SpecFloat FloatAxioms.
Import ListNotations.
Open Scope string_scope.
Open Scope list_scope.

Set Warnings "-inexact-float,-register-all".

(* ================================================================== *)
(** ** Python values, exceptions, outcomes *)

Module Py.

(** The part of the built-in exception hierarchy the sources meet.
    [except Exception] catches every class below [Exception]; the three
    first ones are outside of it. *)
Inductive ExnClass :=
| BaseException | KeyboardInterrupt | SystemExit
| Exception | ValueError | TypeError | AttributeError | OSError
| UnicodeDecodeError | JSONDecodeError | UnboundLocalError.

Definition is_Exception (c : ExnClass) : bool :=
  match c with
  | BaseException | KeyboardInterrupt | SystemExit => false
  | _ => true
  end.

Record Exn := mkExn { exn_class : ExnClass; exn_msg : string }.

Inductive Outcome (A : Type) :=
| Ret (a : A)
| Raise (e : Exn).
Arguments Ret {A} a.
Arguments Raise {A} e.

(** What [json.loads] returns and what [json.dumps] accepts.  [JNull] is
    Python's [None]; a [dict] keeps its items in insertion order. *)
Inductive JSON :=
| JNull
| JBool (b : bool)
| JInt (n : Z)
| JFloat (f : float)
| JStr (s : string)
| JArr (l : list JSON)
| JObj (items : list (string * JSON)).

(** [bool(v)] *)
Definition truthy (v : JSON) : bool :=
  match v with
  | JNull => false
  | JBool b => b
  | JInt n => negb (n =? 0)%Z
  | JFloat f => negb (PrimFloat.eqb f 0%float)
  | JStr s => negb (s =? "")%string
  | JArr l => match l with [] => false | _ => true end
  | JObj items => match items with [] => false | _ => true end
  end.

(** [d.get(k)] on the items of a dict: the value, or [None]. *)
Fixpoint dict_get (items : list (string * JSON)) (k : string) : JSON :=
  match items with
  | [] => JNull
  | (k', v) :: rest => if (k' =? k)%string then v else dict_get rest k
  end.

(** [v.get(k)]: only a dict has the method. *)
Definition get (v : JSON) (k : string) : Outcome JSON :=
  match v with
  | JObj items => Ret (dict_get items k)
  | _ => Raise (mkExn AttributeError "object has no attribute 'get'")
  end.

(** [v != s] for a string literal [s]. *)
Definition ne_str (v : JSON) (s : string) : bool :=
  match v with
  | JStr s' => negb (s' =? s)%string
  | _ => true
  end.

(** [d[k] = v] on the items of a dict: an existing key keeps its place. *)
Fixpoint dict_set (items : list (string * JSON)) (k : string) (v : JSON)
  : list (string * JSON) :=
  match items with
  | [] => [(k, v)]
  | (k', v') :: rest =>
      if (k' =? k)%string then (k', v) :: rest
      else (k', v') :: dict_set rest k v
  end.

(** [k in d] on the items of a dict. *)
Definition dict_mem (items : list (string * JSON)) (k : string) : bool :=
  existsb (fun kv => (fst kv =? k)%string) items.

End Py.
Export Py.

(* ================================================================== *)
(** ** Events, the environment and the effect monad *)

(** A command is the Python dict [{"type": ..., "params": {...}}]. *)
Definition Command := JSON.

Definition command (type : string) (params : list (string * JSON)) : Command :=
  JObj [("type", JStr type); ("params", JObj params)].

Definition cmd_type (c : Command) : string :=
  match c with
  | JObj items => match dict_get items "type" with JStr s => s | _ => "" end
  | _ => ""
  end.

(** [c["params"][k]] *)
Definition cmd_param (c : Command) (k : string) : JSON :=
  match c with
  | JObj items =>
      match dict_get items "params" with
      | JObj params => dict_get params k
      | _ => JNull
      end
  | _ => JNull
  end.

Inductive FsOp :=
| Mkdir (path : string)                 (* Path.mkdir(exist_ok=True) *)
| Makedirs (path : string)              (* mkdir(parents=True, exist_ok=True), os.makedirs *)
| Copy2 (src dst : string)              (* shutil.copy2 *)
| WriteJson (path : string) (v : JSON)  (* open(path, 'w'); json.dump *)
| WriteText (path : string).            (* open(path, 'w'); f.write *)

Inductive Event :=
| EConnect                    (* socket.connect(('localhost', 5000)) *)
| ESend (c : Command)         (* socket.send of the encoded command *)
| EAnalyze (path : string)    (* analyze_image entered: cv2.imread *)
| EFs (op : FsOp)
| EExists (path : string)
| EReadJson (path : string)
| EGlob (dir pattern : string)
| ESleep (seconds : Z)        (* time.sleep *)
| EClose.                     (* socket.close *)

Definition Trace := list Event.

(** The commands written to the connection, in order. *)
Fixpoint commands_of (t : Trace) : list Command :=
  match t with
  | [] => []
  | ESend c :: t' => c :: commands_of t'
  | _ :: t' => commands_of t'
  end.

Inductive RecvResult :=
| RecvError (msg : string)        (* recv raises OSError *)
| RecvBytes (pending : list byte). (* what the peer has put on the stream *)

Inductive ReadResult :=
| ReadOSError (msg : string)
| ReadBadJson (msg : string)
| ReadValue (v : JSON).

(** A BGR raster as [cv2.imread] returns it. *)
Record Image := mkImage {
  img_height : Z;
  img_width : Z;
  img_pixels : list (list (Z * Z * Z))
}.

(** The world outside the program.  Every oracle sees the trace so far, so
    an answer may depend on everything that happened before. *)
Record World := mkWorld {
  connect_error : Trace -> option string;
  send_error : Trace -> Command -> option string;
  recv_result : Trace -> RecvResult;
  imread : Trace -> string -> option Image;
  fs_error : Trace -> FsOp -> option string;
  path_exists : Trace -> string -> bool;
  read_json : Trace -> string -> ReadResult;
  glob : Trace -> string -> string -> list string
}.

Inductive SockState :=
| NoSocket      (* self.blender_client is None *)
| Unconnected   (* socket created, connect not done or failed *)
| Connected
| Closed.

Record State := mkState { trace : Trace; sock : SockState }.

Definition M (A : Type) : Type := State -> Outcome A * State.

Definition ret {A} (a : A) : M A := fun s => (Ret a, s).
Definition raise {A} (c : ExnClass) (msg : string) : M A :=
  fun s => (Raise (mkExn c msg), s).
Definition bind {A B} (m : M A) (k : A -> M B) : M B :=
  fun s => match m s with
           | (Ret a, s') => k a s'
           | (Raise e, s') => (Raise e, s')
           end.

Declare Scope py_scope.
Delimit Scope py_scope with py.
Notation "x <- m ;; k" := (bind m (fun x => k))
  (at level 100, m at next level, right associativity) : py_scope.
Notation "m ;; k" := (bind m (fun _ => k))
  (at level 100, right associativity) : py_scope.
Local Open Scope py_scope.

Definition lift {A} (o : Outcome A) : M A := fun s => (o, s).

Definition emit (e : Event) : M unit :=
  fun s => (Ret tt, mkState (trace s ++ [e]) (sock s)).

Definition get_trace : M Trace := fun s => (Ret (trace s), s).
Definition get_sock : M SockState := fun s => (Ret (sock s), s).
Definition set_sock (k : SockState) : M unit :=
  fun s => (Ret tt, mkState (trace s) k).

(** [try: body except Exception as e: handler(e)] *)
Definition try_except {A} (body : M A) (handler : Exn -> M A) : M A :=
  fun s => match body s with
           | (Ret a, s') => (Ret a, s')
           | (Raise e, s') =>
               if is_Exception (exn_class e) then handler e s'
               else (Raise e, s')
           end.

(** [try: body finally: cleanup] *)
Definition try_finally {A} (body : M A) (cleanup : M unit) : M A :=
  fun s => match body s with
           | (Ret a, s') =>
               match cleanup s' with
               | (Ret _, s'') => (Ret a, s'')
               | (Raise e, s'') => (Raise e, s'')
               end
           | (Raise e, s') =>
               match cleanup s' with
               | (Ret _, s'') => (Raise e, s'')
               | (Raise e', s'') => (Raise e', s'')
               end
           end.

(** A file-system call that either succeeds or raises [OSError]. *)
Definition fs (W : World) (op : FsOp) : M unit :=
  t <- get_trace ;;
  emit (EFs op) ;;
  match fs_error W t op with
  | Some msg => raise OSError msg
  | None => ret tt
  end.

(** A contour as OpenCV returns it: its points, [len(contour)] of them. *)
Definition Point := (Z * Z)%type.
Definition Contour := list Point.
Definition Gray := list (list Z).
Definition Color := (Z * Z * Z)%type.

(** Library functions the sources call and this repository does not define:
    codecs, string and path helpers, OpenCV and PIL. *)
Record Lib := mkLib {
  utf8_decode : list byte -> option string;   (* bytes.decode() *)
  json_loads : string -> option JSON;         (* json.loads *)
  py_str : JSON -> string;                    (* str(v) in an f-string *)
  str_title : string -> string;               (* s.title() *)
  path_name : string -> string;               (* Path(p).name *)
  path_stem : string -> string;               (* Path(p).stem *)
  path_join : string -> string -> string;     (* Path(a) / b *)
  cvtColor_BGR2RGB : Image -> Image;
  cvtColor_BGR2GRAY : Image -> Gray;
  Canny : Gray -> Z -> Z -> Gray;
  findContours : Gray -> list Contour;        (* RETR_EXTERNAL, CHAIN_APPROX_SIMPLE *)
  contourArea : Contour -> float;
  arcLength : Contour -> bool -> float;
  approxPolyDP : Contour -> float -> bool -> Contour;
  getcolors : Image -> Z -> option (list (Z * Color))  (* Image.fromarray(a).getcolors(maxcolors) *)
}.

(* ================================================================== *)
(** ** The protocol client *)

Module Client.
Section Client.
Context (L : Lib) (W : World).

(** [connect_to_blender] of both pipelines and [BlenderMCPClient.connect]. *)
Definition connect_to_blender : M bool :=
  try_except
    (set_sock Unconnected ;;
     t <- get_trace ;;
     emit EConnect ;;
     match connect_error W t with
     | Some msg => raise OSError msg
     | None => set_sock Connected ;; ret true
     end)
    (fun _ => ret false).

(** [self.blender_client.send(json.dumps(command).encode())] *)
Definition sock_send (c : Command) : M unit :=
  k <- get_sock ;;
  match k with
  | NoSocket => raise AttributeError "'NoneType' object has no attribute 'send'"
  | Unconnected => raise OSError "socket is not connected"
  | Closed => raise OSError "bad file descriptor"
  | Connected =>
      t <- get_trace ;;
      emit (ESend c) ;;
      match send_error W t c with
      | Some msg => raise OSError msg
      | None => ret tt
      end
  end.

(** [self.blender_client.recv(4096)]: at most 4096 bytes of what is there. *)
Definition sock_recv (bufsize : nat) : M (list byte) :=
  t <- get_trace ;;
  match recv_result W t with
  | RecvError msg => raise OSError msg
  | RecvBytes pending => ret (firstn bufsize pending)
  end.

Definition decode (bs : list byte) : M string :=
  match utf8_decode L bs with
  | Some s => ret s
  | None => raise UnicodeDecodeError "'utf-8' codec can't decode"
  end.

Definition loads (s : string) : M JSON :=
  match json_loads L s with
  | Some v => ret v
  | None => raise JSONDecodeError "Expecting value"
  end.

(** [send_blender_command] of both pipelines and
    [BlenderMCPClient.send_command]; [JNull] is the [None] of the handler. *)
Definition send_blender_command (c : Command) : M JSON :=
  try_except
    (sock_send c ;;
     bs <- sock_recv 4096 ;;
     response <- decode bs ;;
     loads response)
    (fun _ => ret JNull).

Definition close : M unit :=
  k <- get_sock ;;
  match k with
  | NoSocket => ret tt
  | _ => emit EClose ;; set_sock Closed
  end.

(** The reply a connected client hands to its caller for command [c] after
    history [t]. *)
Definition reply (t : Trace) (c : Command) : JSON :=
  match send_error W t c with
  | Some _ => JNull
  | None =>
      match recv_result W (t ++ [ESend c]) with
      | RecvError _ => JNull
      | RecvBytes pending =>
          match utf8_decode L (firstn 4096 pending) with
          | None => JNull
          | Some s => match json_loads L s with
                      | None => JNull
                      | Some v => v
                      end
          end
      end
  end.

End Client.
End Client.

(* ================================================================== *)
(** ** The shape classifier ([analyze_image] of both pipelines) *)

Module Classifier.

(** [max(items, key=key)]: the first item whose key no later key exceeds. *)
Fixpoint max_from {A K} (gt : K -> K -> bool) (key : A -> K)
  (best : A) (rest : list A) : A :=
  match rest with
  | [] => best
  | x :: rest' =>
      if gt (key x) (key best) then max_from gt key x rest'
      else max_from gt key best rest'
  end.

Definition fgt (a b : float) : bool := PrimFloat.ltb b a.

Record ImageData := mkImageData {
  width : Z;
  height : Z;
  shape_type : string;
  dominant_color : Color;
  area : float;
  complexity : Z
}.

Section Classifier.
Context (L : Lib) (W : World).

(** The branch under [if contours:] once [largest_contour] is chosen. *)
Definition shape_of_largest (largest_contour : Contour) : string :=
  let perimeter := arcLength L largest_contour true in
  if (4 <? List.length largest_contour)%nat then
    let epsilon := (0.02 * perimeter)%float in
    let approx := approxPolyDP L largest_contour epsilon true in
    if (List.length approx =? 3)%nat then "triangle"
    else if (List.length approx =? 4)%nat then "rectangle"
    else if (4 <? List.length approx)%nat then "complex"
    else "circle"
  else "circle".

Definition largest_of (first : Contour) (rest : list Contour) : Contour :=
  max_from fgt (contourArea L) first rest.

Definition shape_of_contours (contours : list Contour) : string :=
  match contours with
  | [] => "complex"
  | first :: rest => shape_of_largest (largest_of first rest)
  end.

Definition dominant_of (img_rgb : Image) : Color :=
  match getcolors L img_rgb 256 with
  | Some (first :: rest) => snd (max_from Z.gtb fst first rest)
  | _ => (128, 128, 128)%Z
  end.

(** Everything [analyze_image] does once the image is loaded. *)
Definition describe (img : Image) : ImageData :=
  let img_rgb := cvtColor_BGR2RGB L img in
  let gray := cvtColor_BGR2GRAY L img in
  let edges := Canny L gray 50 150 in
  let contours := findContours L edges in
  {| width := img_width img;
     height := img_height img;
     shape_type := shape_of_contours contours;
     dominant_color := dominant_of img_rgb;
     area := match contours with
             | [] => 0%float
             | first :: rest => contourArea L (largest_of first rest)
             end;
     complexity := Z.of_nat (List.length contours) |}.

Definition analyze_image (image_path : string) : M ImageData :=
  t <- get_trace ;;
  emit (EAnalyze image_path) ;;
  match imread W t image_path with
  | None => raise ValueError ("Could not load image: " ++ image_path)%string
  | Some img => ret (describe img)
  end.

End Classifier.
End Classifier.

(* ================================================================== *)
(** ** [ImageTo3DPipeline] ([image_to_3d_pipeline.py]) *)

Module ImageTo3DPipeline.
Import Classifier.

Definition project_root : string := "/Volumes/Folk_DAS/Apps/MacroAI".

(** [not result or result.get('status') != 'success'] *)
Definition failed (result : JSON) : Outcome bool :=
  if negb (truthy result) then Ret true
  else match get result "status" with
       | Ret status => Ret (ne_str status "success")
       | Raise e => Raise e
       end.

Definition keyframe (frame : Z) (value : JSON) : JSON :=
  JObj [("frame", JInt frame); ("value", value)].

Definition create_command (shape : string) : Command :=
  if (shape =? "triangle")%string then
    command "create_object"
      [("object_type", JStr "MESH"); ("primitive_type", JStr "CONE");
       ("location", JArr [JInt 0; JInt 0; JInt 0]);
       ("radius", JFloat 1.0%float); ("height", JFloat 2.0%float)]
  else if (shape =? "circle")%string then
    command "create_object"
      [("object_type", JStr "MESH"); ("primitive_type", JStr "SPHERE");
       ("location", JArr [JInt 0; JInt 0; JInt 0]);
       ("radius", JFloat 1.0%float)]
  else if (shape =? "rectangle")%string then
    command "create_object"
      [("object_type", JStr "MESH"); ("primitive_type", JStr "CUBE");
       ("location", JArr [JInt 0; JInt 0; JInt 0]);
       ("size", JFloat 1.0%float)]
  else
    command "create_object"
      [("object_type", JStr "MESH"); ("primitive_type", JStr "CYLINDER");
       ("location", JArr [JInt 0; JInt 0; JInt 0]);
       ("radius", JFloat 0.5%float); ("height", JFloat 1.5%float)].

Definition texture_command (texture_path : string) : Command :=
  command "apply_texture"
    [("texture_path", JStr texture_path); ("mapping", JStr "UV");
     ("wrap", JStr "REPEAT")].

Definition material_command : Command :=
  command "apply_material"
    [("material_name", JStr "ImageMaterial");
     ("color", JArr [JFloat 0.8%float; JFloat 0.8%float; JFloat 0.8%float]);
     ("metallic", JFloat 0.0%float); ("roughness", JFloat 0.5%float)].

Definition scale_command : Command :=
  command "add_animation"
    [("animation_type", JStr "scale");
     ("keyframes", JArr [keyframe 0 (JFloat 1.0%float);
                         keyframe 15 (JFloat 1.1%float);
                         keyframe 30 (JFloat 1.0%float)]);
     ("loop", JBool true)].

Definition rotation_command : Command :=
  command "add_animation"
    [("animation_type", JStr "rotation");
     ("keyframes", JArr [keyframe 0 (JInt 0); keyframe 30 (JInt 5);
                         keyframe 60 (JInt 0)]);
     ("loop", JBool true)].

Definition bounce_command : Command :=
  command "add_animation"
    [("animation_type", JStr "location");
     ("keyframes",
      JArr [keyframe 0 (JArr [JInt 0; JInt 0; JInt 0]);
            keyframe 15 (JArr [JInt 0; JInt 0; JFloat 0.2%float]);
            keyframe 30 (JArr [JInt 0; JInt 0; JInt 0])]);
     ("loop", JBool true)].

Definition spin_command : Command :=
  command "add_animation"
    [("animation_type", JStr "rotation");
     ("keyframes", JArr [keyframe 0 (JInt 0); keyframe 60 (JInt 360)]);
     ("loop", JBool true)].

Definition pulse_command : Command :=
  command "add_animation"
    [("animation_type", JStr "scale");
     ("keyframes", JArr [keyframe 0 (JFloat 1.0%float);
                         keyframe 20 (JFloat 1.2%float);
                         keyframe 40 (JFloat 1.0%float)]);
     ("loop", JBool true)].

Definition export_command (usdz_path : string) : Command :=
  command "export"
    [("format", JStr "USDZ"); ("filepath", JStr usdz_path);
     ("embed_textures", JBool true); ("optimize_mesh", JBool true);
     ("include_animations", JBool true)].

Section Pipeline.
Context (L : Lib) (W : World).

Definition output_dir : string := path_join L project_root "3D_Assets".
Definition themes_dir : string :=
  path_join L project_root "MacroAI Pro/MacroAI Pro/Resources/Themes".

Definition send_blender_command := Client.send_blender_command L W.

Definition apply_material_color : M unit :=
  _ <- send_blender_command material_command ;;
  ret tt.

Definition apply_image_texture (image_path : string) : M unit :=
  let texture_dir := "/tmp/blender_textures" in
  fs W (Mkdir texture_dir) ;;
  let texture_path := path_join L texture_dir (path_name L image_path) in
  fs W (Copy2 image_path texture_path) ;;
  result <- send_blender_command (texture_command texture_path) ;;
  bad <- lift (failed result) ;;
  if bad : bool then apply_material_color else ret tt.

Definition create_3d_model_from_image (image_path : string)
  (image_data : ImageData) : M string :=
  result <- send_blender_command (create_command (shape_type image_data)) ;;
  bad <- lift (failed result) ;;
  if bad : bool then raise Exception "Failed to create 3D model"
  else
    apply_image_texture image_path ;;
    ret (path_stem L image_path).

Definition add_dance_animation : M unit :=
  _ <- send_blender_command scale_command ;;
  _ <- send_blender_command rotation_command ;;
  ret tt.

Definition add_bounce_animation : M unit :=
  _ <- send_blender_command bounce_command ;; ret tt.

Definition add_spin_animation : M unit :=
  _ <- send_blender_command spin_command ;; ret tt.

Definition add_pulse_animation : M unit :=
  _ <- send_blender_command pulse_command ;; ret tt.

Definition add_animations (model_name animation_type : string) : M unit :=
  if (animation_type =? "dance")%string then add_dance_animation
  else if (animation_type =? "bounce")%string then add_bounce_animation
  else if (animation_type =? "spin")%string then add_spin_animation
  else if (animation_type =? "pulse")%string then add_pulse_animation
  else add_dance_animation.

Definition export_model (model_name theme_name : string) : M string :=
  let theme_output_dir := path_join L output_dir theme_name in
  fs W (Makedirs theme_output_dir) ;;
  let usdz_path := path_join L theme_output_dir (model_name ++ ".usdz")%string in
  result <- send_blender_command (export_command usdz_path) ;;
  bad <- lift (failed result) ;;
  if bad : bool
  then raise Exception ("Failed to export USDZ: " ++ py_str L result)%string
  else ret usdz_path.

Definition default_theme_config (theme_name : string) : JSON :=
  JObj [("id", JStr theme_name);
        ("name", JStr (str_title L theme_name ++ " Theme")%string);
        ("description",
         JStr ("Custom " ++ theme_name ++ " theme with 3D animations")%string);
        ("isPremium", JBool true);
        ("colors", JObj [("primary", JStr "#007AFF");
                         ("secondary", JStr "#FF6B6B");
                         ("accent", JStr "#FFD93D");
                         ("background", JStr "#F8F9FA")])].

Definition load_theme_config (theme_config_path theme_name : string) : M JSON :=
  t <- get_trace ;;
  emit (EExists theme_config_path) ;;
  if path_exists W t theme_config_path then
    t' <- get_trace ;;
    emit (EReadJson theme_config_path) ;;
    match read_json W t' theme_config_path with
    | ReadOSError msg => raise OSError msg
    | ReadBadJson msg => raise JSONDecodeError msg
    | ReadValue v => ret v
    end
  else ret (default_theme_config theme_name).

(** The in-memory edits of [update_theme_config]; anything but a dict, at
    either level, ends in a [TypeError]. *)
Definition add_model_entry (theme_config : JSON) (model_name usdz_path : string)
  : Outcome JSON :=
  match theme_config with
  | JObj items =>
      let items1 :=
        if negb (dict_mem items "3dModels")
        then dict_set items "3dModels" (JObj [])
        else items in
      match dict_get items1 "3dModels" with
      | JObj models =>
          let entry :=
            JObj [("usdzPath", JStr usdz_path);
                  ("animationType", JStr "dance");
                  ("scale", JFloat 1.0%float);
                  ("position", JArr [JInt 0; JInt 0; JInt 0]);
                  ("rotation", JArr [JInt 0; JInt 0; JInt 0])] in
          let items2 :=
            dict_set items1 "3dModels" (JObj (dict_set models model_name entry)) in
          Ret (JObj (dict_set items2 "specialEffects"
                 (JObj [("particles", JStr "sparkles");
                        ("celebrationAnimation",
                         JStr (model_name ++ "_dance")%string);
                        ("overfillEffect", JStr "glow_effect")])))
      | _ => Raise (mkExn TypeError "object does not support item assignment")
      end
  | _ => Raise (mkExn TypeError "argument is not a dict")
  end.

Definition theme_config_path (theme_name : string) : string :=
  path_join L themes_dir (theme_name ++ ".json")%string.

Definition update_theme_config (theme_name model_name usdz_path : string)
  : M unit :=
  theme_config <- load_theme_config (theme_config_path theme_name) theme_name ;;
  updated <- lift (add_model_entry theme_config model_name usdz_path) ;;
  fs W (WriteJson (theme_config_path theme_name) updated).

Definition create_swift_integration (theme_name model_name : string) : M unit :=
  let swift_path :=
    path_join L (path_join L project_root "MacroAI Pro/MacroAI Pro")
      (str_title L model_name ++ "View.swift")%string in
  fs W (WriteText swift_path).

Definition process_image_to_3d (image_path theme_name animation_type : string)
  : M string :=
  image_data <- analyze_image L W image_path ;;
  model_name <- create_3d_model_from_image image_path image_data ;;
  add_animations model_name animation_type ;;
  usdz_path <- export_model model_name theme_name ;;
  update_theme_config theme_name model_name usdz_path ;;
  ret usdz_path.

Definition success_entry (image_file usdz_path : string) : JSON :=
  JObj [("image", JStr image_file); ("usdz", JStr usdz_path);
        ("status", JStr "success")].

Definition failed_entry (image_file : string) (e : Exn) : JSON :=
  JObj [("image", JStr image_file); ("usdz", JNull);
        ("status", JStr "failed"); ("error", JStr (exn_msg e))].

(** What the [try] block of the batch loop does before it appends. *)
Definition job (image_file theme_name : string) : M string :=
  usdz_path <- process_image_to_3d image_file theme_name "dance" ;;
  create_swift_integration theme_name (path_stem L image_file) ;;
  ret usdz_path.

(** The [for image_file in image_files] loop, [results] being the list
    built so far. *)
Fixpoint batch_loop (image_files : list string) (theme_name : string)
  (results : list JSON) : M (list JSON) :=
  match image_files with
  | [] => ret results
  | image_file :: rest =>
      results' <-
        try_except
          (usdz_path <- job image_file theme_name ;;
           ret (results ++ [success_entry image_file usdz_path]))
          (fun e => ret (results ++ [failed_entry image_file e])) ;;
      batch_loop rest theme_name results'
  end.

Definition list_glob (dir pattern : string) : M (list string) :=
  t <- get_trace ;;
  emit (EGlob dir pattern) ;;
  ret (glob W t dir pattern).

Definition exists_ (path : string) : M bool :=
  t <- get_trace ;;
  emit (EExists path) ;;
  ret (path_exists W t path).

Definition process_batch_images (image_folder theme_name : string)
  : M (list JSON) :=
  present <- exists_ image_folder ;;
  if negb present
  then raise ValueError ("Image folder not found: " ++ image_folder)%string
  else
    png_files <- list_glob image_folder "*.png" ;;
    jpg_files <- list_glob image_folder "*.jpg" ;;
    let image_files := png_files ++ jpg_files in
    match image_files with
    | [] => raise ValueError ("No image files found in " ++ image_folder)%string
    | _ => batch_loop image_files theme_name []
    end.

Definition close := Client.close.

End Pipeline.
End ImageTo3DPipeline.

(* ================================================================== *)
(** ** [Simple3DPipeline] ([simple_3d_pipeline.py]) *)

Module Simple3DPipeline.
Import Classifier.

(** The Blender scripts are fixed templates filled by f-strings.  A script
    is kept as the template chosen and the values interpolated into it. *)
Inductive Script :=
| ConeScript (name texture_path : string)        (* primitive_cone_add *)
| SphereScript (name texture_path : string)      (* primitive_uv_sphere_add *)
| CylinderScript (name texture_path : string)    (* primitive_cylinder_add *)
| DanceScript (model_name : string)              (* scale and rotation curves *)
| BounceScript (model_name : string)             (* location curve *)
| DefaultAnimationScript (model_name : string)   (* scale curves only *)
| UsdzExportScript (model_name usdz_path : string)  (* export_scene.usdz *)
| GlbExportScript (model_name glb_path : string).   (* export_scene.gltf, GLB *)

Definition script_text (sc : Script) : string :=
  match sc with
  | ConeScript n t =>
      "bpy.ops.mesh.primitive_cone_add name=" ++ n ++ " image=" ++ t
  | SphereScript n t =>
      "bpy.ops.mesh.primitive_uv_sphere_add name=" ++ n ++ " image=" ++ t
  | CylinderScript n t =>
      "bpy.ops.mesh.primitive_cylinder_add name=" ++ n ++ " image=" ++ t
  | DanceScript n => "action " ++ n ++ "_dance scale rotation_euler"
  | BounceScript n => "action " ++ n ++ "_bounce location"
  | DefaultAnimationScript n => "action " ++ n ++ "_dance scale"
  | UsdzExportScript n p =>
      "bpy.ops.export_scene.usdz object=" ++ n ++ " filepath=" ++ p
  | GlbExportScript n p =>
      "bpy.ops.export_scene.gltf export_format=GLB object=" ++ n
      ++ " filepath=" ++ p
  end%string.

Definition execute_code (sc : Script) : Command :=
  command "execute_code" [("code", JStr (script_text sc))].

Section Pipeline.
Context (L : Lib) (W : World).

Definition output_dir : string :=
  path_join L ImageTo3DPipeline.project_root "3D_Assets".

Definition send_blender_command := Client.send_blender_command L W.
Definition failed := ImageTo3DPipeline.failed.

Definition create_3d_model_from_image (image_path : string)
  (image_data : ImageData) : M string :=
  let temp_dir := "/tmp/blender_textures" in
  fs W (Mkdir temp_dir) ;;
  let texture_path := path_join L temp_dir (path_name L image_path) in
  fs W (Copy2 image_path texture_path) ;;
  let name := path_stem L image_path in
  let blender_code :=
    if (shape_type image_data =? "triangle")%string
    then ConeScript name texture_path
    else if (shape_type image_data =? "circle")%string
    then SphereScript name texture_path
    else CylinderScript name texture_path in
  result <- send_blender_command (execute_code blender_code) ;;
  bad <- lift (failed result) ;;
  if bad : bool
  then raise Exception ("Failed to create 3D model: " ++ py_str L result)%string
  else ret (path_stem L image_path).

Definition add_animations (model_name animation_type : string) : M unit :=
  let animation_code :=
    if (animation_type =? "dance")%string then DanceScript model_name
    else if (animation_type =? "bounce")%string then BounceScript model_name
    else DefaultAnimationScript model_name in
  result <- send_blender_command (execute_code animation_code) ;;
  _ <- lift (failed result) ;;
  ret tt.

Definition export_as_glb (model_name theme_name : string) : M string :=
  let theme_output_dir := path_join L output_dir theme_name in
  fs W (Makedirs theme_output_dir) ;;
  let glb_path := path_join L theme_output_dir (model_name ++ ".glb")%string in
  result <- send_blender_command
              (execute_code (GlbExportScript model_name glb_path)) ;;
  bad <- lift (failed result) ;;
  if bad : bool
  then raise Exception ("Failed to export model: " ++ py_str L result)%string
  else ret glb_path.

Definition export_model (model_name theme_name : string) : M string :=
  let theme_output_dir := path_join L output_dir theme_name in
  fs W (Makedirs theme_output_dir) ;;
  let usdz_path := path_join L theme_output_dir (model_name ++ ".usdz")%string in
  result <- send_blender_command
              (execute_code (UsdzExportScript model_name usdz_path)) ;;
  bad <- lift (failed result) ;;
  if bad : bool then export_as_glb model_name theme_name
  else ret usdz_path.

Definition process_image_to_3d (image_path theme_name animation_type : string)
  : M string :=
  image_data <- analyze_image L W image_path ;;
  model_name <- create_3d_model_from_image image_path image_data ;;
  add_animations model_name animation_type ;;
  export_path <- export_model model_name theme_name ;;
  ret export_path.

End Pipeline.
End Simple3DPipeline.

(* ================================================================== *)
(** ** [process_images.py] *)

Module ProcessImages.
Section ProcessImages.
Context (L : Lib) (W : World).

Definition argv_get (argv : list string) (i : nat) : string := nth i argv "".

(** [batch_process()], reading [sys.argv]. *)
Definition batch_process (argv : list string) : M unit :=
  if (List.length argv <? 3)%nat then ret tt
  else
    let folder_path := argv_get argv 2 in
    let theme_name :=
      if (3 <? List.length argv)%nat then argv_get argv 3 else "custom" in
    present <- ImageTo3DPipeline.exists_ W folder_path ;;
    if negb present then ret tt
    else
      png <- ImageTo3DPipeline.list_glob W folder_path "*.png" ;;
      jpg <- ImageTo3DPipeline.list_glob W folder_path "*.jpg" ;;
      jpeg <- ImageTo3DPipeline.list_glob W folder_path "*.jpeg" ;;
      match png ++ jpg ++ jpeg with
      | [] => ret tt
      | _ =>
          set_sock NoSocket ;;      (* pipeline = ImageTo3DPipeline() *)
          connected <- Client.connect_to_blender W ;;
          if negb connected then ret tt
          else
            try_finally
              (try_except
                 (_ <- ImageTo3DPipeline.process_batch_images L W
                         folder_path theme_name ;;
                  ret tt)
                 (fun _ => ret tt))
              Client.close
      end.

End ProcessImages.
End ProcessImages.

(* ================================================================== *)
(** ** [create_medical_assets.py] *)

Module MedicalAssets.

(** Calling [f] with the unpacked dict [kwargs], [f] having the parameters
    of [signature] (a default, or none): the arguments bound, or the
    [TypeError] of an unexpected or a missing one. *)
Definition bind_kwargs (f : string) (signature : list (string * option JSON))
  (kwargs : list (string * JSON)) : Outcome (list (string * JSON)) :=
  if existsb (fun kv => negb (existsb (fun p => (fst p =? fst kv)%string) signature))
       kwargs
  then Raise (mkExn TypeError (f ++ "() got an unexpected keyword argument")%string)
  else if existsb (fun p => match snd p with
                            | None => negb (dict_mem kwargs (fst p))
                            | Some _ => false
                            end) signature
  then Raise (mkExn TypeError (f ++ "() missing a required argument")%string)
  else Ret (map (fun p => (fst p,
                           if dict_mem kwargs (fst p) then dict_get kwargs (fst p)
                           else match snd p with Some d => d | None => JNull end))
              signature).

Definition origin : JSON := JArr [JInt 0; JInt 0; JInt 0].
Definition gray : JSON :=
  JArr [JFloat 0.8%float; JFloat 0.8%float; JFloat 0.8%float].

Definition cube_signature : list (string * option JSON) :=
  [("size", Some (JFloat 1.0%float)); ("location", Some origin)].
Definition cylinder_signature : list (string * option JSON) :=
  [("radius", Some (JFloat 0.5%float)); ("height", Some (JFloat 2.0%float));
   ("location", Some origin)].
Definition sphere_signature : list (string * option JSON) :=
  [("radius", Some (JFloat 1.0%float)); ("location", Some origin)].
Definition material_signature : list (string * option JSON) :=
  [("material_name", None); ("color", Some gray);
   ("metallic", Some (JFloat 0.0%float)); ("roughness", Some (JFloat 0.5%float))].

Definition cube_command (a : list (string * JSON)) : Command :=
  command "create_object"
    [("object_type", JStr "MESH"); ("primitive_type", JStr "CUBE");
     ("location", dict_get a "location"); ("size", dict_get a "size")].

Definition cylinder_command (a : list (string * JSON)) : Command :=
  command "create_object"
    [("object_type", JStr "MESH"); ("primitive_type", JStr "CYLINDER");
     ("location", dict_get a "location"); ("radius", dict_get a "radius");
     ("height", dict_get a "height")].

Definition sphere_command (a : list (string * JSON)) : Command :=
  command "create_object"
    [("object_type", JStr "MESH"); ("primitive_type", JStr "SPHERE");
     ("location", dict_get a "location"); ("radius", dict_get a "radius")].

Definition material_command (a : list (string * JSON)) : Command :=
  command "apply_material"
    [("material_name", dict_get a "material_name");
     ("color", dict_get a "color"); ("metallic", dict_get a "metallic");
     ("roughness", dict_get a "roughness")].

Definition export_usdz_command (filepath : string) : Command :=
  command "export"
    [("format", JStr "USDZ"); ("filepath", JStr filepath);
     ("embed_textures", JBool true); ("optimize_mesh", JBool true)].

Definition delete_object_command : Command :=
  command "delete_object" [("object_name", JNull)].

Record Device := mkDevice {
  dev_name : string;
  dev_type : string;
  dev_params : list (string * JSON);
  dev_material : list (string * JSON)
}.

Definition rgb (r g b : float) : JSON := JArr [JFloat r; JFloat g; JFloat b].

Definition devices : list Device :=
  [ mkDevice "stethoscope" "cylinder"
      [("radius", JFloat 0.1%float); ("height", JFloat 0.8%float);
       ("location", origin)]
      [("name", JStr "Stethoscope_Metal"); ("color", rgb 0.7 0.7 0.7);
       ("metallic", JFloat 1.0%float); ("roughness", JFloat 0.1%float)];
    mkDevice "syringe" "cylinder"
      [("radius", JFloat 0.05%float); ("height", JFloat 0.3%float);
       ("location", origin)]
      [("name", JStr "Syringe_Plastic"); ("color", rgb 0.9 0.9 0.9);
       ("metallic", JFloat 0.0%float); ("roughness", JFloat 0.8%float)];
    mkDevice "thermometer" "cylinder"
      [("radius", JFloat 0.02%float); ("height", JFloat 0.15%float);
       ("location", origin)]
      [("name", JStr "Thermometer_Glass"); ("color", rgb 0.8 0.9 1.0);
       ("metallic", JFloat 0.0%float); ("roughness", JFloat 0.1%float)];
    mkDevice "anatomy_heart" "sphere"
      [("radius", JFloat 0.5%float); ("location", origin)]
      [("name", JStr "Heart_Tissue"); ("color", rgb 0.8 0.2 0.2);
       ("metallic", JFloat 0.0%float); ("roughness", JFloat 0.9%float)];
    mkDevice "surgical_scalpel" "cube"
      [("size", JFloat 0.8%float); ("location", origin)]
      [("name", JStr "Scalpel_Metal"); ("color", rgb 0.8 0.8 0.8);
       ("metallic", JFloat 1.0%float); ("roughness", JFloat 0.2%float)] ].

(** [result and result.get('status') == 'success'] *)
Definition succeeded (result : JSON) : Outcome bool :=
  if truthy result then
    match get result "status" with
    | Ret status => Ret (negb (ne_str status "success"))
    | Raise e => Raise e
    end
  else Ret false.

Section MedicalAssets.
Context (L : Lib) (W : World).

Definition send_command := Client.send_blender_command L W.

(** The methods of [BlenderMCPClient], called with an unpacked dict. *)
Definition create_cube (kwargs : list (string * JSON)) : M JSON :=
  a <- lift (bind_kwargs "create_cube" cube_signature kwargs) ;;
  send_command (cube_command a).

Definition create_cylinder (kwargs : list (string * JSON)) : M JSON :=
  a <- lift (bind_kwargs "create_cylinder" cylinder_signature kwargs) ;;
  send_command (cylinder_command a).

Definition create_sphere (kwargs : list (string * JSON)) : M JSON :=
  a <- lift (bind_kwargs "create_sphere" sphere_signature kwargs) ;;
  send_command (sphere_command a).

Definition apply_material (kwargs : list (string * JSON)) : M JSON :=
  a <- lift (bind_kwargs "apply_material" material_signature kwargs) ;;
  send_command (material_command a).

Definition export_usdz (filepath : string) : M JSON :=
  send_command (export_usdz_command filepath).

Definition delete_object : M JSON := send_command delete_object_command.

Definition output_dir : string := "/Volumes/Folk_DAS/Apps/MacroAI/3D_Assets".

(** One round of [for device in devices]; [result] is the local variable
    of that name, unbound until a branch assigns it. *)
Definition device_round (device : Device) (result : option JSON)
  : M (option JSON) :=
  result1 <-
    (if (dev_type device =? "cylinder")%string
     then r <- create_cylinder (dev_params device) ;; ret (Some r)
     else if (dev_type device =? "sphere")%string
     then r <- create_sphere (dev_params device) ;; ret (Some r)
     else if (dev_type device =? "cube")%string
     then r <- create_cube (dev_params device) ;; ret (Some r)
     else ret result) ;;
  match result1 with
  | None =>
      raise UnboundLocalError
        "local variable 'result' referenced before assignment"
  | Some r1 =>
      ok1 <- lift (succeeded r1) ;;
      result2 <-
        (if ok1 : bool then
           r2 <- apply_material (dev_material device) ;;
           ok2 <- lift (succeeded r2) ;;
           if ok2 : bool then
             let usdz_path :=
               (output_dir ++ "/" ++ dev_name device ++ ".usdz")%string in
             r3 <- export_usdz usdz_path ;;
             _ <- lift (succeeded r3) ;;
             ret r3
           else ret r2
         else ret r1) ;;
      _ <- delete_object ;;
      emit (ESleep 1) ;;
      ret (Some result2)
  end.

Fixpoint devices_loop (ds : list Device) (result : option JSON) : M unit :=
  match ds with
  | [] => ret tt
  | device :: rest =>
      result' <- device_round device result ;;
      devices_loop rest result'
  end.

Definition create_medical_devices : M unit :=
  set_sock NoSocket ;;       (* client = BlenderMCPClient() *)
  connected <- Client.connect_to_blender W ;;
  if negb connected then ret tt
  else
    fs W (Makedirs output_dir) ;;
    devices_loop devices None ;;
    Client.close.

End MedicalAssets.
End MedicalAssets.

(* ================================================================== *)
(** ** Concrete libraries and worlds, to run the pipelines on *)

Module Mock.

Definition dq : string := String (ascii_of_nat 34) "".

(** The text of a reply object with one [status] field. *)
Definition status_text (status : string) : string :=
  ("{" ++ dq ++ "status" ++ dq ++ ": " ++ dq ++ status ++ dq ++ "}")%string.

Definition success_text : string := status_text "success".
Definition error_text : string := status_text "error".

(** A decoder for the two replies above; any other text is rejected. *)
Definition json_loads (s : string) : option JSON :=
  if (s =? success_text)%string then Some (JObj [("status", JStr "success")])
  else if (s =? error_text)%string then Some (JObj [("status", JStr "error")])
  else None.

Definition utf8_decode (bs : list byte) : option string :=
  if forallb (fun b => (Byte.to_nat b <? 128)%nat) bs
  then Some (string_of_list_byte bs)
  else None.

(** The last path component, and that component without its suffix. *)
Fixpoint name_from (s cur : string) : string :=
  match s with
  | EmptyString => cur
  | String c rest =>
      if (c =? "/")%char then name_from rest ""
      else name_from rest (cur ++ String c "")%string
  end.

Fixpoint stem_from (s seen : string) (before_dot : option string) : string :=
  match s with
  | EmptyString =>
      match before_dot with
      | Some b => if (b =? "")%string then seen else b
      | None => seen
      end
  | String c rest =>
      if (c =? ".")%char
      then stem_from rest (seen ++ String c "")%string (Some seen)
      else stem_from rest (seen ++ String c "")%string before_dot
  end.

Definition path_name (p : string) : string := name_from p "".
Definition path_stem (p : string) : string := stem_from (path_name p) "" None.
Definition path_join (a b : string) : string := (a ++ "/" ++ b)%string.

Definition Z_to_float (z : Z) : float :=
  if (z <? 0)%Z then PrimFloat.opp (PrimFloat.of_uint63 (Uint63.of_Z (- z)))
  else PrimFloat.of_uint63 (Uint63.of_Z z).

(** Twice the signed area of a polygon, by the shoelace formula. *)
Fixpoint shoelace (first : Point) (c : Contour) : Z :=
  match c with
  | [] => 0
  | [p] => fst p * snd first - fst first * snd p
  | p :: (q :: _) as rest => fst p * snd q - fst q * snd p + shoelace first rest
  end%Z.

Definition contourArea (c : Contour) : float :=
  match c with
  | [] => 0%float
  | first :: _ => (Z_to_float (Z.abs (shoelace first c)) / 2)%float
  end.

Definition distance (p q : Point) : float :=
  let dx := Z_to_float (fst q - fst p) in
  let dy := Z_to_float (snd q - snd p) in
  PrimFloat.sqrt (dx * dx + dy * dy)%float.

Fixpoint path_length (first : Point) (closed : bool) (c : Contour) : float :=
  match c with
  | [] => 0%float
  | [p] => if closed then distance p first else 0%float
  | p :: (q :: _) as rest => (distance p q + path_length first closed rest)%float
  end.

Definition arcLength (c : Contour) (closed : bool) : float :=
  match c with
  | [] => 0%float
  | first :: _ => path_length first closed c
  end.

(** A library whose contour finder returns [contours] for every image and
    whose polygon approximation keeps every point it is given. *)
Definition lib (contours : list Contour) : Lib :=
  mkLib utf8_decode json_loads
    (fun _ => "<reply>")                (* py_str *)
    (fun s => s)                        (* str_title *)
    path_name path_stem path_join
    (fun img => img)                    (* cvtColor_BGR2RGB *)
    (fun img => map (map (fun px => fst (fst px))) (img_pixels img))
    (fun g _ _ => g)                    (* Canny *)
    (fun _ => contours)                 (* findContours *)
    contourArea arcLength
    (fun c _ _ => c)                    (* approxPolyDP *)
    (fun _ _ => None).                  (* getcolors *)

Definition square : Contour := [(0, 0); (10, 0); (10, 10); (0, 10)]%Z.
Definition pentagon : Contour := [(0, 0); (10, 0); (14, 8); (5, 14); (-4, 8)]%Z.

Definition blank : Image := mkImage 16 16 [].

Fixpoint last_command (t : Trace) : option Command :=
  match t with
  | [] => None
  | e :: t' =>
      match t' with
      | [] => match e with ESend c => Some c | _ => None end
      | _ => last_command t'
      end
  end.

(** A world in which the peer answers command [c] with the text
    [answer c], every listed file decodes to [blank], the file system
    obeys, only [folder] exists and it holds [files]. *)
Definition world (answer : Command -> string) (folder : string)
  (files : list string) : World :=
  {| connect_error := fun _ => None;
     send_error := fun _ _ => None;
     recv_result := fun t =>
       match last_command t with
       | Some c => RecvBytes (list_byte_of_string (answer c))
       | None => RecvError "timed out"
       end;
     imread := fun _ p =>
       if existsb (fun f => (f =? p)%string) files then Some blank else None;
     fs_error := fun _ _ => None;
     path_exists := fun _ p => (p =? folder)%string;
     read_json := fun _ _ => ReadOSError "No such file or directory";
     glob := fun _ dir pattern =>
       if ((dir =? folder) && (pattern =? "*.png"))%string then files else [] |}.

Definition all_success (_ : Command) : string := success_text.

(** Every command succeeds but those of type [kind]. *)
Definition fail_only (kind : string) (c : Command) : string :=
  if (cmd_type c =? kind)%string then error_text else success_text.



End Mock.

(* ================================================================== *)
(** ** The vocabulary of the specification *)

Module Spec.

(** The reply carries [status = success]. *)
Definition answers_success (r : JSON) : bool :=
  match r with
  | JObj items => negb (ne_str (dict_get items "status") "success")
  | _ => false
  end.

(** The response is missing, or its status is other than success. *)
Definition no_success (r : JSON) : Prop :=
  r = JNull \/
  exists items, r = JObj items /\ dict_get items "status" <> JStr "success".

(** The client answers every command with [status = success]. *)
Definition always_success (L : Lib) (W : World) : Prop :=
  forall t c, answers_success (Client.reply L W t c) = true.

(** No file-system call fails. *)
Definition fs_obeys (W : World) : Prop :=
  forall t op, fs_error W t op = None.

(** The images the classifier was invoked on, in order. *)
Fixpoint analyses_of (t : Trace) : list string :=
  match t with
  | [] => []
  | EAnalyze p :: t' => p :: analyses_of t'
  | _ :: t' => analyses_of t'
  end.

(** The delays taken, in order. *)
Fixpoint sleeps_of (t : Trace) : list Z :=
  match t with
  | [] => []
  | ESleep n :: t' => n :: sleeps_of t'
  | _ :: t' => sleeps_of t'
  end.

(** One CreateObject, one texture-or-material command, one AddAnimation
    and one Export, in that order and nothing else. *)
Definition one_of_each (cs : list Command) : Prop :=
  exists c1 c2 c3 c4,
    cs = [c1; c2; c3; c4] /\
    cmd_type c1 = "create_object" /\
    (cmd_type c2 = "apply_texture" \/ cmd_type c2 = "apply_material") /\
    cmd_type c3 = "add_animation" /\
    cmd_type c4 = "export".

(** The class a vertex count stands for: 3 Triangle, 4 Rectangle, more
    Complex, fewer Circle. *)
Definition class_of_count (n : nat) : string :=
  if (n =? 3)%nat then "triangle"
  else if (n =? 4)%nat then "rectangle"
  else if (4 <? n)%nat then "complex"
  else "circle".

(** The polygon the largest contour is approximated to, at a tolerance of
    2% of its perimeter. *)
Definition approximation (L : Lib) (largest : Contour) : Contour :=
  approxPolyDP L largest (0.02 * arcLength L largest true)%float true.

(** The silhouette class as the specification words it: by the vertex
    count of the approximation of the largest contour. *)
Definition spec_shape (L : Lib) (first : Contour) (rest : list Contour) : string :=
  class_of_count (List.length (approximation L (Classifier.largest_of L first rest))).

(** The animation commands of an animation kind. *)
Definition animation_commands (animation_type : string) : list Command :=
  if (animation_type =? "bounce")%string then [ImageTo3DPipeline.bounce_command]
  else if (animation_type =? "spin")%string then [ImageTo3DPipeline.spin_command]
  else if (animation_type =? "pulse")%string then [ImageTo3DPipeline.pulse_command]
  else [ImageTo3DPipeline.scale_command; ImageTo3DPipeline.rotation_command].





(** A computation keeps the relation [T] between the trace it starts from
    and the trace it leaves, and raises only exceptions of [P]. *)
Definition respects (T : Trace -> Trace -> Prop) (P : Exn -> Prop)
  {A : Type} (m : M A) : Prop :=
  forall s,
    T (trace s) (trace (snd (m s))) /\
    forall e, fst (m s) = Raise e -> P e.

(** Whatever it raises, [except Exception] catches. *)
Definition catchable (e : Exn) : Prop := is_Exception (exn_class e) = true.

Definition raises_catchable {A : Type} (m : M A) : Prop :=
  respects (fun _ _ => True) catchable m.

(** It does not sleep. *)
Definition same_sleeps (t t' : Trace) : Prop := sleeps_of t' = sleeps_of t.

Definition sleepless {A : Type} (m : M A) : Prop :=
  respects same_sleeps (fun _ => True) m.

(** It analyses no image. *)
Definition same_analyses (t t' : Trace) : Prop := analyses_of t' = analyses_of t.

End Spec.

(* ================================================================== *)
(** ** Entry points and the loops left *)

Module EntryPoints.
Section EntryPoints.
Context (L : Lib) (W : World).

(** [Path(p).suffix.lower()], of the path library. *)
Context (suffix_lower : string -> string).

Definition argv_get := ProcessImages.argv_get.

(** [main()] of [process_images.py], reading [sys.argv]. *)
Definition process_images_main (argv : list string) : M unit :=
  if (List.length argv <? 2)%nat then ret tt
  else
    let image_path := argv_get argv 1 in
    let theme_name :=
      if (2 <? List.length argv)%nat then argv_get argv 2 else "custom" in
    let animation_type :=
      if (3 <? List.length argv)%nat then argv_get argv 3 else "dance" in
    present <- ImageTo3DPipeline.exists_ W image_path ;;
    if negb present then ret tt
    else if negb (existsb (String.eqb (suffix_lower image_path))
                    [".png"; ".jpg"; ".jpeg"])
    then ret tt
    else
      set_sock NoSocket ;;      (* pipeline = ImageTo3DPipeline() *)
      connected <- Client.connect_to_blender W ;;
      if negb connected then ret tt
      else
        try_finally
          (try_except
             (_ <- ImageTo3DPipeline.process_image_to_3d L W
                     image_path theme_name animation_type ;;
              ImageTo3DPipeline.create_swift_integration L W theme_name
                (path_stem L image_path))
             (fun _ => ret tt))
          Client.close.

(** The [if __name__ == "__main__"] block of [process_images.py]. *)
Definition process_images_script (argv : list string) : M unit :=
  if ((1 <? List.length argv)%nat && (argv_get argv 1 =? "--batch")%string)%bool
  then ProcessImages.batch_process L W argv
  else process_images_main argv.

Definition christmas_tree_path : string :=
  "/Volumes/Folk_DAS/Apps/MacroAI/MacroAI Pro/MacroAI Pro/Assets.xcassets/christmas_tree_with_sunglasses.imageset/E1D08663-4ACF-4F0E-88BF-50AD554581D5.png".

(** [main()] of [simple_3d_pipeline.py]. *)
Definition simple_main : M unit :=
  set_sock NoSocket ;;          (* pipeline = Simple3DPipeline() *)
  connected <- Client.connect_to_blender W ;;
  if negb connected then ret tt
  else
    try_finally
      (try_except
         (present <- ImageTo3DPipeline.exists_ W christmas_tree_path ;;
          if present : bool then
            _ <- Simple3DPipeline.process_image_to_3d L W
                   christmas_tree_path "christmas" "dance" ;;
            ret tt
          else ret tt)
         (fun _ => ret tt))
      Client.close.

(** [main()] of [image_to_3d_pipeline.py]: it connects, prints the usage
    and closes. *)
Definition image_main : M unit :=
  set_sock NoSocket ;;          (* pipeline = ImageTo3DPipeline() *)
  connected <- Client.connect_to_blender W ;;
  if negb connected then ret tt
  else try_finally (ret tt) Client.close.

End EntryPoints.
End EntryPoints.

(** [create_educational_models] and the script of
    [create_medical_assets.py]. *)
Module Educational.
Import MedicalAssets.

Definition models : list Device :=
  [ mkDevice "dna_helix" "cylinder"
      [("radius", JFloat 0.1%float); ("height", JFloat 2.0%float);
       ("location", origin)]
      [("name", JStr "DNA_Blue"); ("color", rgb 0.2 0.4 0.8);
       ("metallic", JFloat 0.0%float); ("roughness", JFloat 0.7%float)];
    mkDevice "cell_membrane" "sphere"
      [("radius", JFloat 0.8%float); ("location", origin)]
      [("name", JStr "Cell_Membrane"); ("color", rgb 0.9 0.8 0.6);
       ("metallic", JFloat 0.0%float); ("roughness", JFloat 0.9%float)];
    mkDevice "bone_structure" "cylinder"
      [("radius", JFloat 0.15%float); ("height", JFloat 1.5%float);
       ("location", origin)]
      [("name", JStr "Bone_White"); ("color", rgb 0.95 0.95 0.9);
       ("metallic", JFloat 0.0%float); ("roughness", JFloat 0.8%float)] ].

Definition output_dir : string :=
  "/Volumes/Folk_DAS/Apps/MacroAI/3D_Assets/Educational".

Section Educational.
Context (L : Lib) (W : World).

(** One round of [for model in models]; [result] is the local variable of
    that name, unbound until a branch assigns it. *)
Definition model_round (model : Device) (result : option JSON)
  : M (option JSON) :=
  result1 <-
    (if (dev_type model =? "cylinder")%string
     then r <- create_cylinder L W (dev_params model) ;; ret (Some r)
     else if (dev_type model =? "sphere")%string
     then r <- create_sphere L W (dev_params model) ;; ret (Some r)
     else ret result) ;;
  match result1 with
  | None =>
      raise UnboundLocalError
        "local variable 'result' referenced before assignment"
  | Some r1 =>
      ok1 <- lift (succeeded r1) ;;
      result2 <-
        (if ok1 : bool then
           _ <- apply_material L W (dev_material model) ;;
           let usdz_path :=
             (output_dir ++ "/" ++ dev_name model ++ ".usdz")%string in
           r3 <- export_usdz L W usdz_path ;;
           _ <- lift (succeeded r3) ;;
           ret r3
         else ret r1) ;;
      _ <- delete_object L W ;;
      emit (ESleep 1) ;;
      ret (Some result2)
  end.

Fixpoint models_loop (ms : list Device) (result : option JSON) : M unit :=
  match ms with
  | [] => ret tt
  | model :: rest =>
      result' <- model_round model result ;;
      models_loop rest result'
  end.

Definition create_educational_models : M unit :=
  set_sock NoSocket ;;       (* client = BlenderMCPClient() *)
  connected <- Client.connect_to_blender W ;;
  if negb connected then ret tt
  else
    fs W (Makedirs output_dir) ;;
    models_loop models None ;;
    Client.close.

(** The [if __name__ == "__main__"] block: a test connection, then both
    generators, each on a connection of its own. *)
Definition script : M unit :=
  set_sock NoSocket ;;       (* client = BlenderMCPClient() *)
  connected <- Client.connect_to_blender W ;;
  if connected : bool then
    Client.close ;;
    create_medical_devices L W ;;
    create_educational_models
  else ret tt.

End Educational.
End Educational.

(** More worlds to run on. *)
Module Fixtures.

(** The world [W] in which [folder] holds JPEG files named [*.jpeg] only. *)
Definition jpeg_only (folder : string) (files : list string) (W : World) : World :=
  mkWorld (connect_error W) (send_error W) (recv_result W) (imread W)
    (fs_error W) (fun _ p => (p =? folder)%string) (read_json W)
    (fun _ dir pattern =>
       if ((dir =? folder) && (pattern =? "*.jpeg"))%string then files else []).

(** The world [W] in which every theme configuration exists and reads as
    [read]. *)
Definition with_theme_file (read : ReadResult) (W : World) : World :=
  mkWorld (connect_error W) (send_error W) (recv_result W) (imread W)
    (fs_error W) (fun _ _ => true) (fun _ _ => read) (glob W).

(** The world [W] in which the file operation [bad] fails. *)
Definition with_fs_failure (bad : FsOp -> bool) (W : World) : World :=
  mkWorld (connect_error W) (send_error W) (recv_result W) (imread W)
    (fun _ op => if bad op then Some "Permission denied" else None)
    (path_exists W) (read_json W) (glob W).

Definition is_copy (op : FsOp) : bool :=
  match op with Copy2 _ _ => true | _ => false end.

Definition is_write_text (op : FsOp) : bool :=
  match op with WriteText _ => true | _ => false end.

(** A suffix function for paths with a three-letter extension. *)
Definition suffix_lower (p : string) : string :=
  let n := String.length p in
  if (n <? 4)%nat then "" else substring (n - 4) 4 p.




End Fixtures.

(** Worlds for the script pipeline. *)
Module ScriptFixtures.

(** The text of the script a command carries. *)
Definition code_of (c : Command) : string :=
  match cmd_param c "code" with
  | JStr code => code
  | _ => ""
  end.

(** The peer fails the scripts whose text starts with [start], and every
    connection, file and image behaves as in [Mock.world]. *)
Definition fail_scripts (start : string) (c : Command) : string :=
  if String.prefix start (code_of c) then Mock.error_text else Mock.success_text.

End ScriptFixtures.

(** What the further properties observe. *)
Module Obs.

(** The connection attempts and the closings, in order. *)
Fixpoint connects_of (t : Trace) : nat :=
  match t with
  | [] => 0
  | EConnect :: t' => S (connects_of t')
  | _ :: t' => connects_of t'
  end.

Fixpoint closes_of (t : Trace) : nat :=
  match t with
  | [] => 0
  | EClose :: t' => S (closes_of t')
  | _ :: t' => closes_of t'
  end.

(** The four silhouette classes. *)
Definition is_class (s : string) : Prop :=
  s = "triangle" \/ s = "circle" \/ s = "rectangle" \/ s = "complex".

(** [config["3dModels"][model]], [None] where a level is missing. *)
Definition model_entry (config : JSON) (model : string) : JSON :=
  match config with
  | JObj items =>
      match dict_get items "3dModels" with
      | JObj ms => dict_get ms model
      | _ => JNull
      end
  | _ => JNull
  end.

(** [config[k]] for a dict, [None] otherwise. *)
Definition top (config : JSON) (k : string) : JSON :=
  match config with
  | JObj items => dict_get items k
  | _ => JNull
  end.

(** A theme configuration the update can work on: a dict whose
    [3dModels], when present, is a dict. *)
Definition editable (config : JSON) : bool :=
  match config with
  | JObj items =>
      if dict_mem items "3dModels"
      then match dict_get items "3dModels" with JObj _ => true | _ => false end
      else true
  | _ => false
  end.


(** The entry [update_theme_config] writes for a model. *)
Definition model_record (usdz_path : string) : JSON :=
  JObj [("usdzPath", JStr usdz_path);
        ("animationType", JStr "dance");
        ("scale", JFloat 1.0%float);
        ("position", JArr [JInt 0; JInt 0; JInt 0]);
        ("rotation", JArr [JInt 0; JInt 0; JInt 0])].

(** The life cycle of the connection: the state of the socket, and how
    often it was connected and closed. *)
Definition lifecycle (s : State) : SockState * nat * nat :=
  (sock s, connects_of (trace s), closes_of (trace s)).

(** A computation that leaves the connection as it found it. *)
Definition steady {A : Type} (m : M A) : Prop :=
  forall s, lifecycle (snd (m s)) = lifecycle s.

(** The script the script pipeline sends for a class, and for an
    animation kind. *)
Definition create_script (shape name texture_path : string)
  : Simple3DPipeline.Script :=
  if (shape =? "triangle")%string
  then Simple3DPipeline.ConeScript name texture_path
  else if (shape =? "circle")%string
  then Simple3DPipeline.SphereScript name texture_path
  else Simple3DPipeline.CylinderScript name texture_path.

Definition animation_script (animation_type model_name : string)
  : Simple3DPipeline.Script :=
  if (animation_type =? "dance")%string
  then Simple3DPipeline.DanceScript model_name
  else if (animation_type =? "bounce")%string
  then Simple3DPipeline.BounceScript model_name
  else Simple3DPipeline.DefaultAnimationScript model_name.

End Obs.

(* ================================================================== *)
(** * Properties *)

Local Open Scope py_scope.
Local Arguments firstn : simpl never.

(** ** Traces *)

Lemma commands_of_app (a b : Trace) :
  commands_of (a ++ b) = commands_of a ++ commands_of b.
Proof.
  induction a as [|e a IH]; [reflexivity|].
  destruct e; cbn; rewrite ?IH; reflexivity.
Qed.

Lemma analyses_of_app (a b : Trace) :
  Spec.analyses_of (a ++ b) = Spec.analyses_of a ++ Spec.analyses_of b.
Proof.
  induction a as [|e a IH]; [reflexivity|].
  destruct e; cbn; rewrite ?IH; reflexivity.
Qed.

Lemma sleeps_of_app (a b : Trace) :
  Spec.sleeps_of (a ++ b) = Spec.sleeps_of a ++ Spec.sleeps_of b.
Proof.
  induction a as [|e a IH]; [reflexivity|].
  destruct e; cbn; rewrite ?IH; reflexivity.
Qed.

(** ** The protocol client *)

Section ClientFacts.
Context (L : Lib) (W : World).

(** On an open connection the command is written once and the caller gets
    [Client.reply]. *)
Lemma send_connected (c : Command) (t : Trace) :
  Client.send_blender_command L W c (mkState t Connected)
  = (Ret (Client.reply L W t c), mkState (t ++ [ESend c]) Connected).
Proof.
  unfold Client.send_blender_command, Client.reply, try_except, bind,
    Client.sock_send, Client.sock_recv, Client.decode, Client.loads,
    get_sock, get_trace, emit, raise, ret; cbn.
  destruct (send_error W t c); cbn; [reflexivity|].
  destruct (recv_result W (t ++ [ESend c])); cbn; [reflexivity|].
  destruct (utf8_decode L (firstn 4096 pending)); cbn; [|reflexivity].
  destruct (json_loads L s); reflexivity.
Qed.

(** Without an open connection nothing is written and the caller gets
    [None]. *)
Lemma send_not_connected (c : Command) (s : State) :
  sock s <> Connected ->
  Client.send_blender_command L W c s = (Ret JNull, s).
Proof.
  intros H.
  unfold Client.send_blender_command, try_except, bind, Client.sock_send,
    get_sock, raise, ret; cbn.
  destruct (sock s); cbn; congruence.
Qed.

End ClientFacts.


Section PipelineFacts.
Context (L : Lib) (W : World).
Import ImageTo3DPipeline.

Lemma failed_of_success (r : JSON) :
  Spec.answers_success r = true -> failed r = Ret false.
Proof.
  destruct r; cbn; try discriminate.
  destruct items as [|kv items]; [cbn; discriminate|].
  unfold failed; cbn [truthy negb get].
  intros H. destruct (ne_str _ _); [discriminate|reflexivity].
Qed.

Lemma failed_of_no_success (r : JSON) :
  Spec.no_success r -> failed r = Ret true.
Proof.
  intros [->|(items & -> & H)]; [reflexivity|].
  destruct items as [|kv items]; [reflexivity|].
  unfold failed; cbn [truthy negb get].
  destruct (dict_get (kv :: items) "status") eqn:E; try reflexivity.
  cbn. destruct (String.eqb_spec s "success"); [subst; congruence|reflexivity].
Qed.

(** [update_theme_config] talks to the file system only. *)
Lemma update_theme_config_commands (theme model usdz : string) (s : State) :
  commands_of (trace (snd (update_theme_config L W theme model usdz s)))
  = commands_of (trace s).
Proof.
  unfold update_theme_config, load_theme_config.
  cbv beta iota delta [bind ret raise lift emit get_trace fs]; cbn [trace sock fst snd].
  destruct (path_exists W _ _); cbn [trace sock fst snd].
  - destruct (read_json W _ _); cbn [trace sock fst snd];
      rewrite ?commands_of_app; cbn; rewrite ?app_nil_r; try reflexivity.
    destruct (add_model_entry _ _ _); cbn [trace sock fst snd];
      rewrite ?commands_of_app; cbn; rewrite ?app_nil_r; try reflexivity.
    destruct (fs_error W _ _); cbn [trace sock fst snd];
      rewrite ?commands_of_app; cbn; rewrite ?app_nil_r; reflexivity.
  - destruct (add_model_entry _ _ _); cbn [trace sock fst snd];
      rewrite ?commands_of_app; cbn; rewrite ?app_nil_r; try reflexivity.
    destruct (fs_error W _ _); cbn [trace sock fst snd];
      rewrite ?commands_of_app; cbn; rewrite ?app_nil_r; reflexivity.
Qed.

Lemma add_animations_run (model kind : string) (t : Trace) :
  add_animations L W model kind (mkState t Connected)
  = (Ret tt, mkState (t ++ map ESend (Spec.animation_commands kind)) Connected).
Proof.
  unfold add_animations, Spec.animation_commands, add_dance_animation,
    add_bounce_animation, add_spin_animation, add_pulse_animation,
    send_blender_command.
  destruct (kind =? "dance")%string eqn:Ed.
  - apply String.eqb_eq in Ed; subst kind. cbn [String.eqb Ascii.eqb Bool.eqb].
    cbv beta iota delta [bind ret]. rewrite !send_connected.
    cbn [map]. rewrite <- app_assoc. reflexivity.
  - destruct (kind =? "bounce")%string; [|destruct (kind =? "spin")%string;
      [|destruct (kind =? "pulse")%string]];
    cbv beta iota delta [bind ret]; rewrite !send_connected; cbn [map];
      rewrite <- ?app_assoc; reflexivity.
Qed.

End PipelineFacts.

Ltac run :=
  repeat first
    [ rewrite send_connected
    | rewrite add_animations_run
    | match goal with H : Spec.fs_obeys _ |- _ => rewrite H end
    | match goal with
      | H : Spec.always_success _ _ |- _ =>
          rewrite (failed_of_success _ (H _ _))
      end
    | progress cbv beta iota delta
        [bind ret raise lift emit get_trace get_sock fs]
    | progress cbn [trace sock fst snd] ].

Lemma commands_of_sends (cs : list Command) :
  commands_of (map ESend cs) = cs.
Proof. induction cs as [|c cs IH]; cbn; congruence. Qed.

Ltac trace_commands :=
  rewrite ?commands_of_app, ?commands_of_sends; cbn [commands_of app];
  rewrite ?app_nil_r, <- ?app_assoc; cbn [app].

Section Build.
Context (L : Lib) (W : World).
Import ImageTo3DPipeline.

(** C1, as amended.  When the image decodes, the file system obeys and
    every command is answered with [status = success], the build issues
    one CreateObject, one ApplyTexture, the AddAnimation commands of the
    animation kind and one Export, in that order and nothing else; the
    animation commands are one for bounce, spin and pulse, and two (scale,
    then rotation) for dance and for any other kind. *)
Theorem build_commands_all_success
  (image_path theme kind : string) (t : Trace) (img : Image) :
  Spec.always_success L W -> Spec.fs_obeys W ->
  imread W t image_path = Some img ->
  commands_of
    (trace (snd (process_image_to_3d L W image_path theme kind
                   (mkState t Connected))))
  = commands_of t
      ++ [create_command (Classifier.shape_type (Classifier.describe L img));
          texture_command
            (path_join L "/tmp/blender_textures" (path_name L image_path))]
      ++ Spec.animation_commands kind
      ++ [export_command
            (path_join L (path_join L (output_dir L) theme)
               (path_stem L image_path ++ ".usdz")%string)]
  /\ Forall (fun c => cmd_type c = "add_animation") (Spec.animation_commands kind)
  /\ List.length (Spec.animation_commands kind)
     = if ((kind =? "bounce") || (kind =? "spin") || (kind =? "pulse"))%string
       then 1%nat else 2%nat.
Proof.
  intros Hs Hf Hi. split; [|split].
  - unfold process_image_to_3d, Classifier.analyze_image,
      create_3d_model_from_image, apply_image_texture, export_model,
      send_blender_command.
    run. rewrite Hi. run.
    match goal with
    | |- context [update_theme_config L W ?a ?b ?c ?s] =>
        pose proof (update_theme_config_commands L W a b c s) as Hu;
        destruct (update_theme_config L W a b c s) as [o s']
    end.
    cbn [snd trace] in Hu.
    destruct o; cbn [snd]; rewrite Hu; trace_commands; reflexivity.
  - unfold Spec.animation_commands.
    destruct (kind =? "bounce")%string; [|destruct (kind =? "spin")%string;
      [|destruct (kind =? "pulse")%string]];
      repeat constructor.
  - unfold Spec.animation_commands.
    destruct (kind =? "bounce")%string; [|destruct (kind =? "spin")%string;
      [|destruct (kind =? "pulse")%string]]; reflexivity.
Qed.

End Build.

Lemma mock_always_success (contours : list Contour) (folder : string)
  (files : list string) :
  Spec.always_success (Mock.lib contours) (Mock.world Mock.all_success folder files).
Proof.
  intros t c. unfold Client.reply. cbn [send_error Mock.world recv_result].
  assert (E : forall u, Mock.last_command (u ++ [ESend c]) = Some c).
  { clear. induction u as [|e u IH]; [reflexivity|].
    cbn [app Mock.last_command].
    destruct (u ++ [ESend c]) eqn:Eu; [destruct u; discriminate|exact IH]. }
  rewrite E. reflexivity.
Qed.

Lemma mock_fs_obeys (answer : Command -> string) (folder : string)
  (files : list string) :
  Spec.fs_obeys (Mock.world answer folder files).
Proof. intros t op. reflexivity. Qed.

(** The witness of [build_commands_all_success]: a spin build. *)
Lemma build_commands_all_success_witness :
  commands_of
    (trace (snd (ImageTo3DPipeline.process_image_to_3d (Mock.lib [Mock.pentagon])
                   (Mock.world Mock.all_success "imgs" ["imgs/tree.png"])
                   "imgs/tree.png" "christmas" "spin" (mkState [] Connected))))
  = [ImageTo3DPipeline.create_command "complex";
     ImageTo3DPipeline.texture_command "/tmp/blender_textures/tree.png";
     ImageTo3DPipeline.spin_command;
     ImageTo3DPipeline.export_command
       "/Volumes/Folk_DAS/Apps/MacroAI/3D_Assets/christmas/tree.usdz"].
Proof.
  pose proof (build_commands_all_success (Mock.lib [Mock.pentagon])
                (Mock.world Mock.all_success "imgs" ["imgs/tree.png"])
                "imgs/tree.png" "christmas" "spin" [] Mock.blank
                (mock_always_success _ _ _) (mock_fs_obeys _ _ _) eq_refl) as [H _].
  exact H.
Defined.

(** C1, as stated, fails: with every command answered by success, the
    default dance build issues two AddAnimation commands, five commands in
    all. *)
Lemma dance_build_is_not_one_of_each :
  Spec.always_success (Mock.lib [Mock.pentagon])
    (Mock.world Mock.all_success "imgs" ["imgs/tree.png"]) /\
  map cmd_type
    (commands_of
       (trace (snd (ImageTo3DPipeline.process_image_to_3d (Mock.lib [Mock.pentagon])
                      (Mock.world Mock.all_success "imgs" ["imgs/tree.png"])
                      "imgs/tree.png" "christmas" "dance" (mkState [] Connected)))))
  = ["create_object"; "apply_texture"; "add_animation"; "add_animation"; "export"] /\
  ~ Spec.one_of_each
      (commands_of
         (trace (snd (ImageTo3DPipeline.process_image_to_3d (Mock.lib [Mock.pentagon])
                        (Mock.world Mock.all_success "imgs" ["imgs/tree.png"])
                        "imgs/tree.png" "christmas" "dance" (mkState [] Connected))))).
Proof.
  split; [apply mock_always_success|]. split; [vm_compute; reflexivity|].
  intros (c1 & c2 & c3 & c4 & E & _).
  apply (f_equal (@List.length _)) in E. vm_compute in E. discriminate E.
Qed.

(** ** A failed CreateObject *)

Section CreateFailure.
Context (L : Lib) (W : World).
Import ImageTo3DPipeline.


(** Without success the check of the reply is positive, or the reply is
    no dict and [get] raises. *)
Lemma failed_without_success (r : JSON) :
  Spec.answers_success r = false ->
  failed r = Ret true \/
  exists msg, failed r = Raise (mkExn AttributeError msg).
Proof.
  intros H. unfold failed.
  destruct r as [|b|n|f|s|l|items]; cbn [truthy get].
  - left; reflexivity.
  - destruct b; [right; eexists; reflexivity | left; reflexivity].
  - destruct (n =? 0)%Z; [left; reflexivity | right; eexists; reflexivity].
  - destruct (PrimFloat.eqb f 0); [left; reflexivity | right; eexists; reflexivity].
  - destruct (s =? "")%string; [left; reflexivity | right; eexists; reflexivity].
  - destruct l; [left; reflexivity | right; eexists; reflexivity].
  - destruct items; [left; reflexivity|].
    left. cbn [negb]. cbn [Spec.answers_success] in H.
    destruct (ne_str _ _); [reflexivity | discriminate].
Qed.


End CreateFailure.

(** ** The commands of the build *)

Section TextureFailure.
Context (L : Lib) (W : World).
Import ImageTo3DPipeline.

Lemma cmd_type_create (shape : string) :
  cmd_type (create_command shape) = "create_object".
Proof.
  unfold create_command.
  destruct (shape =? "triangle")%string; [reflexivity|].
  destruct (shape =? "circle")%string; [reflexivity|].
  destruct (shape =? "rectangle")%string; reflexivity.
Qed.

End TextureFailure.

(** ** The concrete worlds *)

Lemma last_command_snoc (u : Trace) (c : Command) :
  Mock.last_command (u ++ [ESend c]) = Some c.
Proof.
  induction u as [|e u IH]; [reflexivity|].
  cbn [app Mock.last_command].
  destruct (u ++ [ESend c]) eqn:Eu; [destruct u; discriminate|exact IH].
Qed.



(** ** Export *)

Section ExportFacts.
Context (L : Lib) (W : World).

(** [ImageTo3DPipeline.export_model] asks for USDZ once and raises when
    that fails: no second format is tried. *)
Lemma export_model_no_fallback (model theme : string) (t : Trace) :
  Spec.fs_obeys W ->
  let dir := path_join L (ImageTo3DPipeline.output_dir L) theme in
  let cmd :=
    ImageTo3DPipeline.export_command (path_join L dir (model ++ ".usdz")%string) in
  let result := Client.reply L W (t ++ [EFs (Makedirs dir)]) cmd in
  Spec.no_success result ->
  ImageTo3DPipeline.export_model L W model theme (mkState t Connected)
  = (Raise (mkExn Exception ("Failed to export USDZ: " ++ py_str L result)%string),
     mkState ((t ++ [EFs (Makedirs dir)]) ++ [ESend cmd]) Connected).
Proof.
  intros Hf dir cmd result Hr.
  unfold ImageTo3DPipeline.export_model, ImageTo3DPipeline.send_blender_command.
  run. fold dir. fold cmd. fold result. rewrite (failed_of_no_success _ Hr).
  reflexivity.
Qed.

(** [Simple3DPipeline.export_model] falls back to GLB exactly once: after
    a failed USDZ script it sends the GLB script, returns the GLB path when
    that succeeds and raises when it fails too. *)
Lemma simple_export_falls_back_once (model theme : string) (t : Trace) :
  Spec.fs_obeys W ->
  let dir := path_join L (Simple3DPipeline.output_dir L) theme in
  let usdz_path := path_join L dir (model ++ ".usdz")%string in
  let glb_path := path_join L dir (model ++ ".glb")%string in
  let usdz := Simple3DPipeline.execute_code
                (Simple3DPipeline.UsdzExportScript model usdz_path) in
  let glb := Simple3DPipeline.execute_code
               (Simple3DPipeline.GlbExportScript model glb_path) in
  let t1 := (t ++ [EFs (Makedirs dir)]) ++ [ESend usdz] in
  let t2 := (t1 ++ [EFs (Makedirs dir)]) ++ [ESend glb] in
  Spec.no_success (Client.reply L W (t ++ [EFs (Makedirs dir)]) usdz) ->
  (Spec.answers_success (Client.reply L W (t1 ++ [EFs (Makedirs dir)]) glb) = true ->
   Simple3DPipeline.export_model L W model theme (mkState t Connected)
   = (Ret glb_path, mkState t2 Connected)) /\
  (Spec.no_success (Client.reply L W (t1 ++ [EFs (Makedirs dir)]) glb) ->
   exists e,
     Simple3DPipeline.export_model L W model theme (mkState t Connected)
     = (Raise e, mkState t2 Connected) /\ exn_class e = Exception) /\
  commands_of t2 = commands_of t ++ [usdz; glb].
Proof.
  intros Hf dir usdz_path glb_path usdz glb t1 t2 Hr.
  split; [|split].
  - intros Hg.
    unfold Simple3DPipeline.export_model, Simple3DPipeline.export_as_glb,
      Simple3DPipeline.send_blender_command, Simple3DPipeline.failed.
    run. fold dir. fold usdz_path. fold usdz.
    rewrite (failed_of_no_success _ Hr). run. fold dir. fold glb_path. fold glb.
    fold t1. rewrite (failed_of_success _ Hg). reflexivity.
  - intros Hg.
    unfold Simple3DPipeline.export_model, Simple3DPipeline.export_as_glb,
      Simple3DPipeline.send_blender_command, Simple3DPipeline.failed.
    run. fold dir. fold usdz_path. fold usdz.
    rewrite (failed_of_no_success _ Hr). run. fold dir. fold glb_path. fold glb.
    fold t1. rewrite (failed_of_no_success _ Hg).
    eexists; split; reflexivity.
  - unfold t2, t1. trace_commands. reflexivity.
Qed.

End ExportFacts.

(** C3 on [ImageTo3DPipeline].  The peer fails the USDZ export and would
    accept anything else: the job issues a single Export command, of format
    USDZ, no GLB request follows, and the batch records the job as failed
    although the secondary format never failed. *)
Theorem usdz_failure_fails_the_job_without_fallback :
  let run :=
    ImageTo3DPipeline.batch_loop (Mock.lib [Mock.pentagon])
      (Mock.world (Mock.fail_only "export") "imgs" ["imgs/tree.png"])
      ["imgs/tree.png"] "christmas" [] (mkState [] Connected) in
  fst run
  = Ret [ImageTo3DPipeline.failed_entry "imgs/tree.png"
           (mkExn Exception "Failed to export USDZ: <reply>")] /\
  map (fun c => (cmd_type c, cmd_param c "format"))
    (commands_of (trace (snd run)))
  = [("create_object", JNull); ("apply_texture", JNull);
     ("add_animation", JNull); ("add_animation", JNull);
     ("export", JStr "USDZ")].
Proof. vm_compute. split; reflexivity. Qed.

(** ** A refused connection *)

Section Connection.
Context (L : Lib) (W : World).


End Connection.


(** ** Delays *)

(** C6 on [process_batch_images].  Two images, a peer that accepts every
    command: both jobs succeed, one right after the other, and the batch
    never sleeps. *)
Theorem batch_of_two_successes_never_sleeps :
  let run :=
    ImageTo3DPipeline.process_batch_images (Mock.lib [Mock.pentagon])
      (Mock.world Mock.all_success "imgs" ["imgs/tree.png"; "imgs/star.png"])
      "imgs" "christmas" (mkState [] Connected) in
  fst run
  = Ret [ImageTo3DPipeline.success_entry "imgs/tree.png"
           "/Volumes/Folk_DAS/Apps/MacroAI/3D_Assets/christmas/tree.usdz";
         ImageTo3DPipeline.success_entry "imgs/star.png"
           "/Volumes/Folk_DAS/Apps/MacroAI/3D_Assets/christmas/star.usdz"] /\
  Spec.sleeps_of (trace (snd run)) = [].
Proof. vm_compute. split; reflexivity. Qed.

(** The device loop of [create_medical_assets.py] does sleep, one second
    after every device it gets through: here the peer fails every
    creation. *)
Lemma medical_devices_sleep_after_each_device :
  let run :=
    MedicalAssets.create_medical_devices (Mock.lib [])
      (Mock.world (Mock.fail_only "create_object") "" []) (mkState [] NoSocket) in
  fst run = Ret tt /\
  Spec.sleeps_of (trace (snd run)) = [1; 1; 1; 1; 1]%Z.
Proof. vm_compute. split; reflexivity. Qed.

(** With a peer that accepts the first creation that loop stops at once:
    the material dict has a key [name], [apply_material] has no such
    parameter. *)
Lemma medical_devices_stop_at_first_success :
  let run :=
    MedicalAssets.create_medical_devices (Mock.lib [])
      (Mock.world Mock.all_success "" []) (mkState [] NoSocket) in
  fst run
  = Raise (mkExn TypeError "apply_material() got an unexpected keyword argument") /\
  Spec.sleeps_of (trace (snd run)) = [].
Proof. vm_compute. split; reflexivity. Qed.

(** ** What a computation may raise and leave in the trace *)

Section Respects.
Context (T : Trace -> Trace -> Prop) (P : Exn -> Prop).
Hypothesis T_refl : forall t, T t t.
Hypothesis T_trans : forall a b c, T a b -> T b c -> T a c.
Hypothesis P_catchable : forall e, Spec.catchable e -> P e.

Lemma respects_ret {A} (a : A) : Spec.respects T P (ret a).
Proof. intros s; split; [apply T_refl | discriminate]. Qed.

Lemma respects_raise {A} (c : ExnClass) (msg : string) :
  is_Exception c = true -> Spec.respects T P (@raise A c msg).
Proof.
  intros H s; split; [apply T_refl|].
  intros e [= <-]. apply P_catchable, H.
Qed.

Lemma respects_lift {A} (o : Outcome A) :
  (forall e, o = Raise e -> Spec.catchable e) -> Spec.respects T P (lift o).
Proof.
  intros H s; split; [apply T_refl|].
  intros e E. apply P_catchable, H, E.
Qed.

Lemma respects_bind {A B} (m : M A) (k : A -> M B) :
  Spec.respects T P m -> (forall a, Spec.respects T P (k a)) -> Spec.respects T P (bind m k).
Proof.
  intros Hm Hk s. unfold bind.
  destruct (Hm s) as [Ht He]. destruct (m s) as [[a|e] s1]; cbn [fst snd] in *.
  - destruct (Hk a s1) as [Ht' He']. split; [eapply T_trans; eassumption | exact He'].
  - split; [exact Ht | intros x [= <-]; apply He; reflexivity].
Qed.

Lemma respects_get_trace : Spec.respects T P get_trace.
Proof. intros s; split; [apply T_refl | discriminate]. Qed.

Lemma respects_get_sock : Spec.respects T P get_sock.
Proof. intros s; split; [apply T_refl | discriminate]. Qed.

Lemma respects_set_sock (k : SockState) : Spec.respects T P (set_sock k).
Proof. intros s; split; [apply T_refl | discriminate]. Qed.

Lemma respects_emit (ev : Event) :
  (forall t, T t (t ++ [ev])) -> Spec.respects T P (emit ev).
Proof. intros H s; split; [apply H | discriminate]. Qed.

Lemma respects_try_except {A} (body : M A) (handler : Exn -> M A) :
  Spec.respects T P body -> (forall e, Spec.respects T P (handler e)) ->
  Spec.respects T P (try_except body handler).
Proof.
  intros Hb Hh s. unfold try_except.
  destruct (Hb s) as [Ht He]. destruct (body s) as [[a|e] s1]; cbn [fst snd] in *.
  - split; [exact Ht | discriminate].
  - destruct (is_Exception (exn_class e)).
    + destruct (Hh e s1) as [Ht' He']. split; [eapply T_trans; eassumption | exact He'].
    + split; [exact Ht | exact He].
Qed.

Lemma respects_try_finally {A} (body : M A) (cleanup : M unit) :
  Spec.respects T P body -> Spec.respects T P cleanup -> Spec.respects T P (try_finally body cleanup).
Proof.
  intros Hb Hc s. unfold try_finally.
  destruct (Hb s) as [Ht He]. destruct (body s) as [[a|e] s1]; cbn [fst snd] in *;
    destruct (Hc s1) as [Ht' He']; destruct (cleanup s1) as [[[]|e'] s2];
    cbn [fst snd] in *;
    (split; [eapply T_trans; eassumption|]);
    try discriminate; intros x [= <-]; auto.
Qed.

Lemma respects_fs (W : World) (op : FsOp) :
  (forall t, T t (t ++ [EFs op])) -> Spec.respects T P (fs W op).
Proof.
  intros H. unfold fs.
  apply respects_bind; [apply respects_get_trace | intros t].
  apply respects_bind; [apply respects_emit, H | intros _].
  destruct (fs_error W t op); [apply respects_raise | apply respects_ret]; reflexivity.
Qed.

(** The client raises nothing and leaves at most the command it wrote. *)
Lemma respects_send (L : Lib) (W : World) (c : Command) :
  (forall t, T t (t ++ [ESend c])) ->
  Spec.respects T P (Client.send_blender_command L W c).
Proof.
  intros H [t k]. destruct k;
    try (rewrite send_not_connected by (cbn; discriminate);
         split; [apply T_refl | discriminate]).
  rewrite send_connected. split; [apply H | discriminate].
Qed.

End Respects.

Lemma failed_raises_catchable (r : JSON) (e : Exn) :
  ImageTo3DPipeline.failed r = Raise e -> Spec.catchable e.
Proof.
  unfold ImageTo3DPipeline.failed.
  destruct (negb (truthy r)); [discriminate|].
  destruct r; cbn [get]; try discriminate; intros [= <-]; reflexivity.
Qed.

Lemma add_model_entry_catchable (L : Lib) (config : JSON) (model usdz : string)
  (e : Exn) :
  ImageTo3DPipeline.add_model_entry config model usdz = Raise e ->
  Spec.catchable e.
Proof.
  unfold ImageTo3DPipeline.add_model_entry.
  destruct config; try (intros [= <-]; reflexivity).
  destruct (dict_get _ "3dModels"); try discriminate; intros [= <-]; reflexivity.
Qed.

Lemma same_sleeps_trans (a b c : Trace) :
  Spec.same_sleeps a b -> Spec.same_sleeps b c -> Spec.same_sleeps a c.
Proof. unfold Spec.same_sleeps. congruence. Qed.

Lemma same_analyses_trans (a b c : Trace) :
  Spec.same_analyses a b -> Spec.same_analyses b c -> Spec.same_analyses a c.
Proof. unfold Spec.same_analyses. congruence. Qed.

(** Side conditions of the rules, for the relations in use. *)
Ltac respect_side :=
  solve
    [ intros; exact I
    | intros; reflexivity
    | intros; assumption
    | intros; unfold Spec.same_sleeps; rewrite sleeps_of_app; cbn; apply app_nil_r
    | exact same_sleeps_trans
    | intros; eapply same_sleeps_trans; eassumption
    | intros; unfold Spec.same_analyses; rewrite analyses_of_app; cbn;
      apply app_nil_r
    | exact same_analyses_trans
    | intros; eapply same_analyses_trans; eassumption
    | intros; eapply failed_raises_catchable; eassumption
    | intros; eapply add_model_entry_catchable; eassumption
    | intros; discriminate ].

Ltac respect_step :=
  lazymatch goal with
  | |- Spec.respects _ _ (bind _ _) => apply respects_bind
  | |- Spec.respects _ _ (ret _) => apply respects_ret
  | |- Spec.respects _ _ (raise _ _) => apply respects_raise
  | |- Spec.respects _ _ (lift _) => apply respects_lift
  | |- Spec.respects _ _ get_trace => apply respects_get_trace
  | |- Spec.respects _ _ get_sock => apply respects_get_sock
  | |- Spec.respects _ _ (set_sock _) => apply respects_set_sock
  | |- Spec.respects _ _ (emit _) => apply respects_emit
  | |- Spec.respects _ _ (fs _ _) => apply respects_fs
  | |- Spec.respects _ _ (Client.send_blender_command _ _ _) =>
      apply respects_send
  | |- Spec.respects _ _ (try_except _ _) => apply respects_try_except
  | |- Spec.respects _ _ (try_finally _ _) => apply respects_try_finally
  | |- Spec.respects _ _ (if ?b then _ else _) => destruct b
  | |- Spec.respects _ _ (match ?x with _ => _ end) => destruct x
  | |- forall _, _ => first [ respect_side | intros ? ]
  | |- _ => respect_side
  end.

Ltac respect := repeat respect_step.

Section JobFacts.
Context (L : Lib) (W : World).
Import ImageTo3DPipeline.

Lemma job_raises_catchable (image_file theme : string) :
  Spec.raises_catchable (job L W image_file theme).
Proof.
  unfold Spec.raises_catchable, job, process_image_to_3d,
    Classifier.analyze_image, create_3d_model_from_image, apply_image_texture,
    apply_material_color, add_animations, add_dance_animation,
    add_bounce_animation, add_spin_animation, add_pulse_animation,
    export_model, update_theme_config, load_theme_config,
    create_swift_integration, send_blender_command.
  respect.
Qed.

End JobFacts.

(** ** The batch *)

Section Batch.
Context (L : Lib) (W : World).
Import ImageTo3DPipeline.







(** The batch loop and the batch never sleep. *)
Lemma job_sleepless (image_file theme : string) :
  Spec.sleepless (job L W image_file theme).
Proof.
  unfold Spec.sleepless, job, process_image_to_3d,
    Classifier.analyze_image, create_3d_model_from_image, apply_image_texture,
    apply_material_color, add_animations, add_dance_animation,
    add_bounce_animation, add_spin_animation, add_pulse_animation,
    export_model, update_theme_config, load_theme_config,
    create_swift_integration, send_blender_command.
  respect.
Qed.

Lemma batch_loop_sleepless (theme : string) (files : list string) :
  forall results, Spec.sleepless (batch_loop L W files theme results).
Proof.
  unfold Spec.sleepless.
  induction files as [|f files IH]; intros results; cbn [batch_loop].
  - respect.
  - repeat first [ apply job_sleepless | apply IH | respect_step ].
Qed.

Lemma process_batch_images_sleepless (image_folder theme : string) :
  Spec.sleepless (process_batch_images L W image_folder theme).
Proof.
  unfold Spec.sleepless, process_batch_images, exists_, list_glob.
  repeat first [ apply batch_loop_sleepless | respect_step ].
Qed.

End Batch.


(** ** The shape classifier *)

(** The order of the floats, from their specification. *)
Lemma SFltb_irrefl (a : spec_float) : SFltb a a = false.
Proof.
  unfold SFltb, SFcompare.
  destruct a as [s|s| |s m e]; try destruct s; try reflexivity;
    rewrite Z.compare_refl;
    change (Pos.compare_cont Eq m m) with (Pos.compare m m);
    rewrite Pos.compare_refl; reflexivity.
Qed.

Lemma SFltb_trans (a b c : spec_float) :
  SFltb a b = true -> SFltb b c = true -> SFltb a c = true.
Proof.
  unfold SFltb, SFcompare.
  destruct a as [sa|sa| |sa ma ea], b as [sb|sb| |sb mb eb],
    c as [sc|sc| |sc mc ec];
    try destruct sa; try destruct sb; try destruct sc;
    try discriminate; try reflexivity;
    change (Pos.compare_cont Eq) with Pos.compare;
    destruct (Z.compare_spec ea eb), (Z.compare_spec eb ec),
      (Z.compare_spec ea ec); try discriminate; try reflexivity; try lia;
    subst;
    destruct (Pos.compare_spec ma mb), (Pos.compare_spec mb mc),
      (Pos.compare_spec ma mc); cbn; try discriminate; try reflexivity; try lia.
Qed.

Lemma fgt_irrefl (x : float) : Classifier.fgt x x = false.
Proof. unfold Classifier.fgt. rewrite ltb_spec. apply SFltb_irrefl. Qed.

Lemma fgt_trans (x y z : float) :
  Classifier.fgt x y = true -> Classifier.fgt y z = true ->
  Classifier.fgt x z = true.
Proof.
  unfold Classifier.fgt. rewrite !ltb_spec. intros H1 H2.
  eapply SFltb_trans; eassumption.
Qed.

Section MaxFrom.
Context {A K : Type} (gt : K -> K -> bool) (key : A -> K).
Hypothesis gt_irrefl : forall k, gt k k = false.
Hypothesis gt_trans :
  forall a b c, gt a b = true -> gt b c = true -> gt a c = true.

Lemma max_from_in (rest : list A) :
  forall best, In (Classifier.max_from gt key best rest) (best :: rest).
Proof.
  induction rest as [|x rest IH]; intros best; cbn [Classifier.max_from].
  - left; reflexivity.
  - destruct (gt (key x) (key best)).
    + right. apply IH.
    + destruct (IH best) as [E|H]; [left; exact E | right; right; exact H].
Qed.

Lemma max_from_dominates (rest : list A) :
  forall best y,
    gt (key y) (key best) = false ->
    gt (key y) (key (Classifier.max_from gt key best rest)) = false.
Proof.
  induction rest as [|x rest IH]; intros best y Hy; cbn [Classifier.max_from].
  - exact Hy.
  - destruct (gt (key x) (key best)) eqn:Ex; [|apply IH, Hy].
    apply IH. destruct (gt (key y) (key x)) eqn:Eyx; [|reflexivity].
    rewrite (gt_trans _ _ _ Eyx Ex) in Hy. discriminate Hy.
Qed.

(** No item has a key above the key of the one [max] returns. *)
Lemma max_from_upper (rest : list A) :
  forall best x,
    In x (best :: rest) ->
    gt (key x) (key (Classifier.max_from gt key best rest)) = false.
Proof.
  induction rest as [|y rest IH]; intros best x Hx.
  - destruct Hx as [<-|[]]. apply gt_irrefl.
  - cbn [Classifier.max_from].
    destruct Hx as [<-|[<-|Hx]].
    + destruct (gt (key y) (key best)) eqn:Ey.
      * apply max_from_dominates.
        destruct (gt (key best) (key y)) eqn:Eb; [|reflexivity].
        pose proof (gt_trans _ _ _ Eb Ey) as Hbb.
        rewrite gt_irrefl in Hbb. discriminate Hbb.
      * apply max_from_dominates, gt_irrefl.
    + destruct (gt (key y) (key best)) eqn:Ey.
      * apply max_from_dominates, gt_irrefl.
      * apply max_from_dominates, Ey.
    + destruct (gt (key y) (key best)); apply IH; right; exact Hx.
Qed.

End MaxFrom.

Section ClassifierFacts.
Context (L : Lib) (W : World).
Import Classifier.

(** C2, as amended.  For a decodable image with at least one contour the
    classifier takes the first contour of maximum area; when that contour
    has more than 4 points it approximates it at a tolerance of 2% of its
    perimeter and classifies by the vertex count of the approximation
    (3 Triangle, 4 Rectangle, more Complex, fewer Circle); when it has 4
    points or fewer the class is Circle and nothing is approximated. *)
Theorem classification_by_vertex_count
  (image_path : string) (t : Trace) (k : SockState) (img : Image)
  (first : Contour) (rest : list Contour) :
  imread W t image_path = Some img ->
  findContours L (Canny L (cvtColor_BGR2GRAY L img) 50 150) = first :: rest ->
  let largest := largest_of L first rest in
  exists d,
    analyze_image L W image_path (mkState t k)
    = (Ret d, mkState (t ++ [EAnalyze image_path]) k) /\
    In largest (first :: rest) /\
    (forall c, In c (first :: rest) ->
               PrimFloat.ltb (contourArea L largest) (contourArea L c) = false) /\
    area d = contourArea L largest /\
    shape_type d
    = if (4 <? List.length largest)%nat
      then Spec.class_of_count (List.length (Spec.approximation L largest))
      else "circle".
Proof.
  intros Hi Hc largest.
  exists (describe L img). split; [|split; [|split; [|split]]].
  - unfold analyze_image. run. rewrite Hi. reflexivity.
  - apply max_from_in.
  - intros c H.
    apply (max_from_upper fgt (contourArea L) fgt_irrefl fgt_trans rest first c H).
  - unfold describe. cbn [area]. rewrite Hc. reflexivity.
  - unfold describe. cbn [shape_type]. rewrite Hc.
    unfold shape_of_contours, shape_of_largest. fold largest.
    reflexivity.
Qed.

End ClassifierFacts.

(** The witness of [classification_by_vertex_count]: of a square and a
    pentagon the pentagon has the larger area, and five vertices. *)
Lemma classification_by_vertex_count_witness :
  exists d,
    Classifier.analyze_image (Mock.lib [Mock.square; Mock.pentagon])
      (Mock.world Mock.all_success "imgs" ["imgs/star.png"])
      "imgs/star.png" (mkState [] Connected)
    = (Ret d, mkState [EAnalyze "imgs/star.png"] Connected) /\
    Classifier.shape_type d = "complex".
Proof.
  destruct (classification_by_vertex_count
              (Mock.lib [Mock.square; Mock.pentagon])
              (Mock.world Mock.all_success "imgs" ["imgs/star.png"])
              "imgs/star.png" [] Connected Mock.blank
              Mock.square [Mock.pentagon] eq_refl eq_refl)
    as (d & Hd & _ & _ & _ & Hs).
  exists d. split; [exact Hd | exact Hs].
Defined.

(** C2, as stated, fails: the four corners of a 10 by 10 square, which the
    approximation at tolerance 0.8 keeps, make a Rectangle by the vertex
    count, and the classifier answers Circle. *)
Lemma square_contour_is_classified_circle :
  exists d,
    fst (Classifier.analyze_image (Mock.lib [Mock.square])
           (Mock.world Mock.all_success "imgs" ["imgs/square.png"])
           "imgs/square.png" (mkState [] Connected))
    = Ret d /\
    Classifier.complexity d = 1%Z /\
    Classifier.shape_type d = "circle" /\
    Spec.spec_shape (Mock.lib [Mock.square]) Mock.square [] = "rectangle" /\
    Classifier.shape_type d <> Spec.spec_shape (Mock.lib [Mock.square]) Mock.square [].
Proof.
  eexists. split; [vm_compute; reflexivity|].
  repeat split; try (vm_compute; reflexivity).
  vm_compute. discriminate.
Qed.

(* ================================================================== *)
(** * Further properties of the code *)

(** ** Python dicts *)

Lemma dict_get_set_same (items : list (string * JSON)) (k : string) (v : JSON) :
  dict_get (dict_set items k v) k = v.
Proof.
  induction items as [|[k' v'] items IH]; cbn.
  - rewrite String.eqb_refl. reflexivity.
  - destruct (k' =? k)%string eqn:E; cbn; rewrite E; [reflexivity | exact IH].
Qed.

Lemma dict_get_set_other (items : list (string * JSON)) (k k0 : string) (v : JSON) :
  k0 <> k -> dict_get (dict_set items k v) k0 = dict_get items k0.
Proof.
  intros H. induction items as [|[k' v'] items IH]; cbn.
  - destruct (String.eqb_spec k k0); [congruence | reflexivity].
  - destruct (String.eqb_spec k' k); cbn.
    + subst k'. destruct (String.eqb_spec k k0); [congruence | reflexivity].
    + destruct (k' =? k0)%string; [reflexivity | exact IH].
Qed.

Lemma dict_get_absent (items : list (string * JSON)) (k : string) :
  dict_mem items k = false -> dict_get items k = JNull.
Proof.
  unfold dict_mem. induction items as [|[k' v'] items IH]; cbn; [reflexivity|].
  destruct (k' =? k)%string; cbn; [discriminate | exact IH].
Qed.

Lemma dict_mem_set_same (items : list (string * JSON)) (k : string) (v : JSON) :
  dict_mem (dict_set items k v) k = true.
Proof.
  unfold dict_mem. induction items as [|[k' v'] items IH]; cbn.
  - rewrite String.eqb_refl. reflexivity.
  - destruct (k' =? k)%string eqn:E; cbn; rewrite E; [reflexivity | exact IH].
Qed.

Lemma dict_mem_set_other (items : list (string * JSON)) (k k0 : string) (v : JSON) :
  dict_mem items k0 = true -> dict_mem (dict_set items k v) k0 = true.
Proof.
  unfold dict_mem. induction items as [|[k' v'] items IH]; cbn; [discriminate|].
  destruct (k' =? k)%string eqn:E; cbn.
  - intros H; exact H.
  - destruct (k' =? k0)%string; cbn; [reflexivity | exact IH].
Qed.

(** ** The shape classifier, beyond the largest contour *)

Section ClassifierMore.
Context (L : Lib).
Import Classifier.

(** X1.  Whatever the image and whatever OpenCV finds in it, the class is
    one of triangle, circle, rectangle and complex, and the complexity is
    the number of contours; an image without contours is complex, with
    area 0 and complexity 0. *)
Theorem classifier_answers_one_of_four_classes (img : Image) :
  let contours := findContours L (Canny L (cvtColor_BGR2GRAY L img) 50 150) in
  Obs.is_class (shape_type (describe L img)) /\
  complexity (describe L img) = Z.of_nat (List.length contours) /\
  (contours = [] ->
   shape_type (describe L img) = "complex" /\
   area (describe L img) = 0%float /\
   complexity (describe L img) = 0%Z).
Proof.
  intros contours. unfold describe. cbn [shape_type complexity area].
  fold contours. split; [|split].
  - unfold Obs.is_class, shape_of_contours, shape_of_largest.
    destruct contours as [|first rest]; [auto|].
    destruct (4 <? _)%nat; [|auto].
    destruct (_ =? 3)%nat; [auto|].
    destruct (_ =? 4)%nat; [auto|].
    destruct (4 <? _)%nat; auto.
  - reflexivity.
  - intros ->. repeat split.
Qed.

(** X2.  The dominant color is a color of the palette that no other
    color outnumbers (the first such one); without a palette, or with an
    empty one, it is mid-gray. *)
Theorem dominant_color_is_most_frequent (img : Image) :
  match getcolors L img 256 with
  | Some (first :: rest) =>
      exists n,
        In (n, dominant_of L img) (first :: rest) /\
        forall m c, In (m, c) (first :: rest) -> (m <= n)%Z
  | _ => dominant_of L img = (128, 128, 128)%Z
  end.
Proof.
  unfold dominant_of.
  destruct (getcolors L img 256) as [[|first rest]|]; try reflexivity.
  assert (Hirr : forall k, Z.gtb k k = false)
    by (intros k; rewrite Z.gtb_ltb; apply Z.ltb_irrefl).
  assert (Htr : forall a b c, Z.gtb a b = true -> Z.gtb b c = true -> Z.gtb a c = true).
  { intros a b c. rewrite !Z.gtb_ltb, !Z.ltb_lt. lia. }
  pose proof (max_from_in Z.gtb fst rest first) as Hin.
  pose proof (max_from_upper Z.gtb fst Hirr Htr rest first) as Hup.
  destruct (max_from Z.gtb fst first rest) as [n col] eqn:E.
  exists n. cbn [snd]. split; [exact Hin|].
  intros m c Hm. specialize (Hup (m, c) Hm). cbn [fst] in Hup.
  rewrite Z.gtb_ltb, Z.ltb_ge in Hup. exact Hup.
Qed.

End ClassifierMore.

(** ** The theme configuration *)

Section ThemeConfig.
Import ImageTo3DPipeline.

Lemma add_model_entry_editable (config : JSON) (model usdz : string) :
  Obs.editable config = true ->
  exists config', add_model_entry config model usdz = Ret config'.
Proof.
  destruct config as [| | | | | |items]; try discriminate.
  unfold Obs.editable, add_model_entry.
  destruct (dict_mem items "3dModels") eqn:Em; cbn [negb].
  - destruct (dict_get items "3dModels"); try discriminate.
    intros _. eexists; reflexivity.
  - intros _. rewrite dict_get_set_same. eexists; reflexivity.
Qed.

(** The in-memory edit, on a configuration it can work on. *)
Lemma add_model_entry_spec (config : JSON) (model usdz : string) :
  Obs.editable config = true ->
  exists config',
    add_model_entry config model usdz = Ret config' /\
    Obs.editable config' = true /\
    Obs.model_entry config' model = Obs.model_record usdz /\
    (forall m, m <> model -> Obs.model_entry config' m = Obs.model_entry config m) /\
    (forall k, k <> "3dModels" -> k <> "specialEffects" ->
               Obs.top config' k = Obs.top config k) /\
    Obs.top config' "specialEffects"
    = JObj [("particles", JStr "sparkles");
            ("celebrationAnimation", JStr (model ++ "_dance")%string);
            ("overfillEffect", JStr "glow_effect")].
Proof.
  destruct config as [| | | | | |items]; try discriminate.
  unfold Obs.editable, add_model_entry, Obs.model_entry, Obs.top.
  assert (Hne : "3dModels" <> "specialEffects") by discriminate.
  assert (Hne' : "specialEffects" <> "3dModels") by discriminate.
  destruct (dict_mem items "3dModels") eqn:Em; cbn [negb].
  - destruct (dict_get items "3dModels") as [| | | | | |ms] eqn:Eg; try discriminate.
    intros _. eexists. split; [reflexivity|]. cbv beta iota.
    rewrite (dict_mem_set_other _ _ _ _ (dict_mem_set_same _ _ _)).
    rewrite !(dict_get_set_other _ "specialEffects" "3dModels") by congruence.
    rewrite !dict_get_set_same.
    split; [reflexivity|]. split; [reflexivity|]. split; [|split].
    + intros m Hm. apply dict_get_set_other. exact Hm.
    + intros k H1 H2. rewrite !dict_get_set_other by congruence. reflexivity.
    + reflexivity.
  - intros _. rewrite dict_get_set_same. eexists. split; [reflexivity|].
    cbv beta iota.
    rewrite (dict_mem_set_other _ _ _ _ (dict_mem_set_same _ _ _)).
    rewrite !(dict_get_set_other _ "specialEffects" "3dModels") by congruence.
    rewrite !dict_get_set_same.
    split; [reflexivity|]. split; [|split; [|split]].
    + reflexivity.
    + intros m Hm. rewrite (dict_get_absent _ _ Em). cbv beta iota.
      rewrite dict_get_set_other by exact Hm. reflexivity.
    + intros k H1 H2. rewrite !dict_get_set_other by congruence. reflexivity.
    + reflexivity.
Qed.

Lemma add_model_entry_ret_editable (config : JSON) (model usdz : string)
  (config' : JSON) :
  add_model_entry config model usdz = Ret config' -> Obs.editable config = true.
Proof.
  destruct config as [| | | | | |items]; try discriminate.
  unfold Obs.editable, add_model_entry.
  destruct (dict_mem items "3dModels") eqn:Em; cbn [negb]; [|reflexivity].
  destruct (dict_get items "3dModels"); try discriminate; reflexivity.
Qed.

Lemma add_model_entry_not_editable (config : JSON) (model usdz : string) :
  Obs.editable config = false ->
  exists msg, add_model_entry config model usdz = Raise (mkExn TypeError msg).
Proof.
  destruct config as [| | | | | |items];
    try (intros _; eexists; reflexivity).
  unfold Obs.editable, add_model_entry.
  destruct (dict_mem items "3dModels") eqn:Em; cbn [negb]; [|discriminate].
  destruct (dict_get items "3dModels"); try discriminate;
    intros _; eexists; reflexivity.
Qed.

(** X4.  The update raises, a [TypeError], exactly on the other
    configurations: a value that is no dict, or a dict whose [3dModels] is
    no dict. *)
Theorem theme_update_rejects_other_shapes (config : JSON) (model usdz : string) :
  (exists e, add_model_entry config model usdz = Raise e /\ exn_class e = TypeError)
  <-> Obs.editable config = false.
Proof.
  split.
  - intros (e & He & _).
    destruct (Obs.editable config) eqn:Ed; [|reflexivity].
    destruct (add_model_entry_editable config model usdz Ed) as (c' & Hc).
    congruence.
  - intros Hd.
    destruct (add_model_entry_not_editable config model usdz Hd) as (msg & Hm).
    eexists; split; [exact Hm | reflexivity].
Qed.

End ThemeConfig.

(** ** The reply to ApplyTexture *)

Section TextureFallback.
Context (L : Lib) (W : World).
Import ImageTo3DPipeline.






End TextureFallback.





Section ThemeFile.
Context (L : Lib) (W : World).
Import ImageTo3DPipeline.

(** X3.  When [update_theme_config] returns, the last thing it did was to
    write the theme's configuration file, once; what it wrote records the
    model under its name with the exported path and the animation type
    [dance] (whatever animation was built), and keeps every other model
    and every other key of the configuration it started from (the file
    when there is one, the default configuration otherwise) but
    [specialEffects]. *)
Theorem theme_update_writes_the_model
  (theme model usdz : string) (s s' : State) :
  update_theme_config L W theme model usdz s = (Ret tt, s') ->
  let path := theme_config_path L theme in
  let old :=
    if path_exists W (trace s) path
    then match read_json W (trace s ++ [EExists path]) path with
         | ReadValue v => v
         | _ => JNull
         end
    else default_theme_config L theme in
  exists t new,
    trace s' = t ++ [EFs (WriteJson path new)] /\
    (forall v, ~ In (EFs (WriteJson path v)) (skipn (List.length (trace s)) t)) /\
    Obs.model_entry new model = Obs.model_record usdz /\
    (forall m, m <> model -> Obs.model_entry new m = Obs.model_entry old m) /\
    (forall k, k <> "3dModels" -> k <> "specialEffects" ->
               Obs.top new k = Obs.top old k).
Proof.
  intros H path old. subst old. revert H.
  unfold update_theme_config, load_theme_config. fold path.
  cbv beta iota delta [bind ret raise lift emit get_trace fs];
    cbn [trace sock fst snd].
  assert (Hskip : forall (a : Trace) b, skipn (List.length a) (a ++ b) = b).
  { clear. intros a b. induction a; [reflexivity | exact IHa]. }
  destruct (path_exists W (trace s) path); cbn [trace sock fst snd].
  - destruct (read_json W (trace s ++ [EExists path]) path) as [msg|msg|v];
      cbn [trace sock fst snd]; try discriminate.
    destruct (add_model_entry v model usdz) as [new|e] eqn:Ea; [|discriminate].
    cbn [trace sock fst snd].
    destruct (fs_error W _ _); [discriminate|].
    intros [= <-]. cbn [trace].
    assert (Hed : Obs.editable v = true)
      by (eapply add_model_entry_ret_editable; exact Ea).
    destruct (add_model_entry_spec v model usdz Hed)
      as (new' & Hn & _ & H1 & H2 & H3 & _).
    rewrite Ea in Hn. injection Hn as <-.
    eexists _, new. split; [reflexivity|]. split; [|auto].
    intros w. rewrite <- app_assoc, Hskip. cbn. intros [E|[E|[]]]; discriminate E.
  - cbn [trace sock fst snd].
    destruct (add_model_entry (default_theme_config L theme) model usdz)
      as [new|e] eqn:Ea; [|discriminate].
    cbn [trace sock fst snd].
    destruct (fs_error W _ _); [discriminate|].
    intros [= <-]. cbn [trace].
    destruct (add_model_entry_spec (default_theme_config L theme) model usdz eq_refl)
      as (new' & Hn & _ & H1 & H2 & H3 & _).
    rewrite Ea in Hn. injection Hn as <-.
    eexists _, new. split; [reflexivity|]. split; [|auto].
    intros w. rewrite Hskip. cbn. intros [E|[]]; discriminate E.
Qed.

End ThemeFile.

(** The witness of [theme_update_writes_the_model]: a theme file that
    already records the model [star]. *)
Lemma theme_update_writes_the_model_witness :
  exists t new,
    trace (snd (ImageTo3DPipeline.update_theme_config (Mock.lib [])
                  (Fixtures.with_theme_file
                     (ReadValue (JObj [("id", JStr "christmas");
                                       ("3dModels",
                                        JObj [("star", Obs.model_record "star.usdz")])]))
                     (Mock.world Mock.all_success "imgs" []))
                  "christmas" "tree" "tree.usdz" (mkState [] Connected)))
    = t ++ [EFs (WriteJson
                   "/Volumes/Folk_DAS/Apps/MacroAI/MacroAI Pro/MacroAI Pro/Resources/Themes/christmas.json"
                   new)] /\
    Obs.model_entry new "tree" = Obs.model_record "tree.usdz" /\
    Obs.model_entry new "star" = Obs.model_record "star.usdz" /\
    Obs.top new "id" = JStr "christmas".
Proof.
  destruct (theme_update_writes_the_model (Mock.lib [])
              (Fixtures.with_theme_file
                 (ReadValue (JObj [("id", JStr "christmas");
                                   ("3dModels",
                                    JObj [("star", Obs.model_record "star.usdz")])]))
                 (Mock.world Mock.all_success "imgs" []))
              "christmas" "tree" "tree.usdz" (mkState [] Connected) _ eq_refl)
    as (t & new & Ht & _ & H1 & H2 & H3).
  exists t, new. split; [exact Ht|]. split; [exact H1|]. split.
  - rewrite (H2 "star") by discriminate. reflexivity.
  - rewrite (H3 "id") by discriminate. reflexivity.
Defined.

(** ** The build, step by step *)

Section BuildMore.
Context (L : Lib) (W : World).
Import ImageTo3DPipeline.

Lemma failed_false_success (r : JSON) :
  failed r = Ret false -> Spec.answers_success r = true.
Proof.
  unfold failed. destruct (negb (truthy r)); [discriminate|].
  destruct r; cbn [get]; try discriminate.
  cbn [Spec.answers_success]. intros [= ->]. reflexivity.
Qed.

(** X5.  Animations are fire and forget: in every state and whatever the
    peer answers, [add_animations] returns normally; on an open connection
    it has written exactly the commands of the kind, two for dance and for
    an unknown kind, one for bounce, spin and pulse, and it leaves the
    connection open. *)
Theorem animations_never_fail (model kind : string) (s : State) :
  exists s',
    add_animations L W model kind s = (Ret tt, s') /\
    sock s' = sock s /\
    (sock s <> Connected -> s' = s) /\
    (sock s = Connected ->
     trace s' = trace s ++ map ESend (Spec.animation_commands kind)).
Proof.
  destruct s as [t k]. destruct k.
  3: { eexists. split; [apply add_animations_run|]. cbn.
       split; [reflexivity|]. split; [congruence | reflexivity]. }
  all: eexists;
    (split;
     [ unfold add_animations, add_dance_animation, add_bounce_animation,
         add_spin_animation, add_pulse_animation, send_blender_command;
       repeat match goal with |- context [if ?b then _ else _] => destruct b end;
       cbv beta iota delta [bind ret];
       rewrite ?send_not_connected by (cbn; discriminate); reflexivity
     | split; [reflexivity | split; [reflexivity | cbn; discriminate]] ]).
Qed.

(** X6.  A build returns a path only when the engine confirmed the work:
    the image decoded, CreateObject was answered with success, and the
    Export command for exactly the returned path, which is
    [<output>/<theme>/<stem>.usdz], was the last command written and was
    answered with success. *)
Theorem success_means_export_confirmed
  (image_path theme kind : string) (t : Trace) (p : string) (s' : State) :
  process_image_to_3d L W image_path theme kind (mkState t Connected)
  = (Ret p, s') ->
  p = path_join L (path_join L (output_dir L) theme)
        (path_stem L image_path ++ ".usdz")%string /\
  (exists img,
     imread W t image_path = Some img /\
     Spec.answers_success
       (Client.reply L W (t ++ [EAnalyze image_path])
          (create_command (Classifier.shape_type (Classifier.describe L img))))
     = true) /\
  (exists u,
     commands_of (trace s') = commands_of u ++ [export_command p] /\
     Spec.answers_success (Client.reply L W u (export_command p)) = true).
Proof.
  unfold process_image_to_3d, Classifier.analyze_image,
    create_3d_model_from_image, apply_image_texture, apply_material_color,
    export_model, send_blender_command.
  run. destruct (imread W t image_path) as [img|] eqn:Hi; run; [|discriminate].
  destruct (failed (Client.reply L W _ (create_command _))) as [[|]|e] eqn:Ec;
    run; try discriminate.
  destruct (fs_error W _ (Mkdir _)); run; [discriminate|].
  destruct (fs_error W _ (Copy2 _ _)); run; [discriminate|].
  destruct (failed (Client.reply L W _ (texture_command _))) as [[|]|e] eqn:Et;
    run; try discriminate;
    (destruct (fs_error W _ (Makedirs _)); run; [discriminate|]);
    (destruct (failed (Client.reply L W _ (export_command _))) as [[|]|e] eqn:Ee;
       run; try discriminate);
    match goal with
    | |- context [update_theme_config L W ?a ?b ?c ?s] =>
        pose proof (update_theme_config_commands L W a b c s) as Hu;
        destruct (update_theme_config L W a b c s) as [[[]|e] s1]
    end; try discriminate;
    intros [= <- <-]; cbn [snd trace] in Hu;
    (split; [reflexivity|]);
    (split; [exists img; split; [reflexivity | apply failed_false_success, Ec]|]);
    eexists; (split; [| apply failed_false_success, Ee]);
    rewrite Hu; rewrite commands_of_app; reflexivity.
Qed.


(** X8.  An image that does not load costs nothing: the build raises the
    [ValueError] naming the path right after the load, in both pipelines,
    before any file is touched and any command written. *)
Theorem undecodable_image_sends_nothing
  (image_path theme kind : string) (s : State) :
  imread W (trace s) image_path = None ->
  let e := mkExn ValueError ("Could not load image: " ++ image_path)%string in
  let s' := mkState (trace s ++ [EAnalyze image_path]) (sock s) in
  process_image_to_3d L W image_path theme kind s = (Raise e, s') /\
  Simple3DPipeline.process_image_to_3d L W image_path theme kind s
  = (Raise e, s').
Proof.
  intros Hi e s'.
  unfold process_image_to_3d, Simple3DPipeline.process_image_to_3d,
    Classifier.analyze_image.
  run. rewrite Hi. split; reflexivity.
Qed.

(** X9.  Unlike a refused ApplyTexture, a texture file that cannot be
    copied is fatal: the build raises the [OSError] of the copy after
    CreateObject succeeded, and no texture, material, animation or export
    command follows the CreateObject already written. *)
Theorem texture_copy_failure_is_fatal
  (image_path theme kind msg : string) (t : Trace) (img : Image) :
  imread W t image_path = Some img ->
  (forall u c, cmd_type c = "create_object" ->
               Spec.answers_success (Client.reply L W u c) = true) ->
  (forall u, fs_error W u (Mkdir "/tmp/blender_textures") = None) ->
  (forall u dst, fs_error W u (Copy2 image_path dst) = Some msg) ->
  exists s',
    process_image_to_3d L W image_path theme kind (mkState t Connected)
    = (Raise (mkExn OSError msg), s') /\
    commands_of (trace s')
    = commands_of t
        ++ [create_command (Classifier.shape_type (Classifier.describe L img))].
Proof.
  intros Hi Hc Hm Hcp.
  unfold process_image_to_3d, Classifier.analyze_image,
    create_3d_model_from_image, apply_image_texture, send_blender_command.
  run. rewrite Hi. run.
  rewrite (failed_of_success _ (Hc _ _ (cmd_type_create _))). run.
  rewrite Hm. run. rewrite Hcp. run.
  eexists. split; [reflexivity|]. cbn [trace]. trace_commands. reflexivity.
Qed.

End BuildMore.

(** The witness of [success_means_export_confirmed]: a bounce build in a
    world that accepts everything. *)
Lemma success_means_export_confirmed_witness :
  exists u,
    commands_of
      (trace (snd (ImageTo3DPipeline.process_image_to_3d (Mock.lib [Mock.pentagon])
                     (Mock.world Mock.all_success "imgs" ["imgs/tree.png"])
                     "imgs/tree.png" "christmas" "bounce" (mkState [] Connected))))
    = commands_of u
        ++ [ImageTo3DPipeline.export_command
              "/Volumes/Folk_DAS/Apps/MacroAI/3D_Assets/christmas/tree.usdz"] /\
    Spec.answers_success
      (Client.reply (Mock.lib [Mock.pentagon])
         (Mock.world Mock.all_success "imgs" ["imgs/tree.png"]) u
         (ImageTo3DPipeline.export_command
            "/Volumes/Folk_DAS/Apps/MacroAI/3D_Assets/christmas/tree.usdz"))
    = true.
Proof.
  refine (proj2 (proj2
    (success_means_export_confirmed (Mock.lib [Mock.pentagon])
       (Mock.world Mock.all_success "imgs" ["imgs/tree.png"])
       "imgs/tree.png" "christmas" "bounce" []
       "/Volumes/Folk_DAS/Apps/MacroAI/3D_Assets/christmas/tree.usdz"
       (snd (ImageTo3DPipeline.process_image_to_3d (Mock.lib [Mock.pentagon])
               (Mock.world Mock.all_success "imgs" ["imgs/tree.png"])
               "imgs/tree.png" "christmas" "bounce" (mkState [] Connected)))
       _))).
  vm_compute. reflexivity.
Defined.


(** The witness of [undecodable_image_sends_nothing]: a file the world
    does not know. *)
Lemma undecodable_image_sends_nothing_witness :
  ImageTo3DPipeline.process_image_to_3d (Mock.lib [])
    (Mock.world Mock.all_success "imgs" []) "imgs/none.png" "christmas" "dance"
    (mkState [] Connected)
  = (Raise (mkExn ValueError "Could not load image: imgs/none.png"),
     mkState [EAnalyze "imgs/none.png"] Connected).
Proof.
  exact (proj1 (undecodable_image_sends_nothing (Mock.lib [])
                  (Mock.world Mock.all_success "imgs" []) "imgs/none.png"
                  "christmas" "dance" (mkState [] Connected) eq_refl)).
Defined.

(** The witness of [texture_copy_failure_is_fatal]: every copy is denied. *)
Lemma texture_copy_failure_is_fatal_witness :
  exists s',
    ImageTo3DPipeline.process_image_to_3d (Mock.lib [Mock.pentagon])
      (Fixtures.with_fs_failure Fixtures.is_copy
         (Mock.world Mock.all_success "imgs" ["imgs/tree.png"]))
      "imgs/tree.png" "christmas" "dance" (mkState [] Connected)
    = (Raise (mkExn OSError "Permission denied"), s') /\
    commands_of (trace s') = [ImageTo3DPipeline.create_command "complex"].
Proof.
  apply (texture_copy_failure_is_fatal (Mock.lib [Mock.pentagon])
           (Fixtures.with_fs_failure Fixtures.is_copy
              (Mock.world Mock.all_success "imgs" ["imgs/tree.png"]))
           "imgs/tree.png" "christmas" "dance" "Permission denied" []
           Mock.blank eq_refl).
  - intros u c _.
    exact (mock_always_success [Mock.pentagon] "imgs" ["imgs/tree.png"] u c).
  - intros u. reflexivity.
  - intros u dst. reflexivity.
Defined.

(** ** The script pipeline *)

Lemma mock_reply_choice (contours : list Contour) (bad : Command -> bool)
  (folder : string) (files : list string) (u : Trace) (c : Command) :
  Client.reply (Mock.lib contours)
    (Mock.world (fun c => if bad c then Mock.error_text else Mock.success_text)
       folder files) u c
  = if bad c then JObj [("status", JStr "error")]
    else JObj [("status", JStr "success")].
Proof.
  unfold Client.reply. cbn [send_error Mock.world recv_result].
  rewrite last_command_snoc.
  destruct (bad c); vm_compute; reflexivity.
Qed.

Section SimpleFacts.
Context (L : Lib) (W : World).
Import Simple3DPipeline.

(** X10.  When the image decodes, the file system obeys and every script
    is answered with success, the script pipeline sends exactly three
    scripts, one that creates and textures the mesh (a cone for a triangle,
    a sphere for a circle, a cylinder for everything else, rectangles
    included), one animation (the scale-only default for every kind but
    dance and bounce) and the USDZ export, and returns the USDZ path. *)
Theorem simple_build_sends_three_scripts
  (image_path theme kind : string) (t : Trace) (img : Image) :
  Spec.always_success L W -> Spec.fs_obeys W ->
  imread W t image_path = Some img ->
  let name := path_stem L image_path in
  let texture_path := path_join L "/tmp/blender_textures" (path_name L image_path) in
  let usdz_path :=
    path_join L (path_join L (output_dir L) theme) (name ++ ".usdz")%string in
  exists s',
    process_image_to_3d L W image_path theme kind (mkState t Connected)
    = (Ret usdz_path, s') /\
    commands_of (trace s')
    = commands_of t
        ++ [execute_code
              (Obs.create_script (Classifier.shape_type (Classifier.describe L img))
                 name texture_path);
            execute_code (Obs.animation_script kind name);
            execute_code (UsdzExportScript name usdz_path)].
Proof.
  intros Hs Hf Hi name texture_path usdz_path.
  unfold process_image_to_3d, Classifier.analyze_image,
    create_3d_model_from_image, add_animations, export_model,
    send_blender_command, failed.
  run. rewrite Hi. run.
  eexists. split; [reflexivity|]. cbn [trace]. trace_commands. reflexivity.
Qed.

(** X11.  In the script pipeline too a refused creation stops the build:
    when the reply to the creation script is missing or does not carry
    success, the build raises right there, the creation script being the
    only command written (the texture file is already copied by then). *)
Theorem simple_create_failure_stops_the_build
  (image_path theme kind : string) (t : Trace) (img : Image) :
  Spec.fs_obeys W ->
  imread W t image_path = Some img ->
  let name := path_stem L image_path in
  let texture_path := path_join L "/tmp/blender_textures" (path_name L image_path) in
  let create :=
    execute_code
      (Obs.create_script (Classifier.shape_type (Classifier.describe L img))
         name texture_path) in
  let t1 := ((t ++ [EAnalyze image_path]) ++ [EFs (Mkdir "/tmp/blender_textures")])
            ++ [EFs (Copy2 image_path texture_path)] in
  Spec.answers_success (Client.reply L W t1 create) = false ->
  exists e,
    process_image_to_3d L W image_path theme kind (mkState t Connected)
    = (Raise e, mkState (t1 ++ [ESend create]) Connected) /\
    (exn_class e = Exception \/ exn_class e = AttributeError).
Proof.
  intros Hf Hi name texture_path create t1 Hr.
  unfold process_image_to_3d, Classifier.analyze_image,
    create_3d_model_from_image, send_blender_command, failed.
  run. rewrite Hi. run.
  fold name. fold texture_path.
  change (if (Classifier.shape_type (Classifier.describe L img) =? "triangle")%string
          then ConeScript name texture_path
          else if (Classifier.shape_type (Classifier.describe L img) =? "circle")%string
               then SphereScript name texture_path
               else CylinderScript name texture_path)
    with (Obs.create_script (Classifier.shape_type (Classifier.describe L img))
            name texture_path).
  fold create. fold t1.
  destruct (failed_without_success _ Hr) as [E|[msg E]]; rewrite E; run;
    eexists; (split; [reflexivity|]); [left | right]; reflexivity.
Qed.


End SimpleFacts.

(** The witness of [simple_build_sends_three_scripts]. *)
Lemma simple_build_sends_three_scripts_witness :
  exists s',
    Simple3DPipeline.process_image_to_3d (Mock.lib [Mock.square])
      (Mock.world Mock.all_success "imgs" ["imgs/tree.png"])
      "imgs/tree.png" "christmas" "spin" (mkState [] Connected)
    = (Ret "/Volumes/Folk_DAS/Apps/MacroAI/3D_Assets/christmas/tree.usdz", s') /\
    commands_of (trace s')
    = [Simple3DPipeline.execute_code
         (Simple3DPipeline.SphereScript "tree" "/tmp/blender_textures/tree.png");
       Simple3DPipeline.execute_code (Simple3DPipeline.DefaultAnimationScript "tree");
       Simple3DPipeline.execute_code
         (Simple3DPipeline.UsdzExportScript "tree"
            "/Volumes/Folk_DAS/Apps/MacroAI/3D_Assets/christmas/tree.usdz")].
Proof.
  exact (simple_build_sends_three_scripts (Mock.lib [Mock.square])
           (Mock.world Mock.all_success "imgs" ["imgs/tree.png"])
           "imgs/tree.png" "christmas" "spin" [] Mock.blank
           (mock_always_success _ _ _) (mock_fs_obeys _ _ _) eq_refl).
Defined.

(** The witness of [simple_create_failure_stops_the_build]: the peer
    refuses the scripts that add a primitive. *)
Lemma simple_create_failure_stops_the_build_witness :
  exists e s',
    Simple3DPipeline.process_image_to_3d (Mock.lib [Mock.pentagon])
      (Mock.world (ScriptFixtures.fail_scripts "bpy.ops.mesh") "imgs" ["imgs/tree.png"])
      "imgs/tree.png" "christmas" "dance" (mkState [] Connected)
    = (Raise e, s') /\
    List.length (commands_of (trace s')) = 1%nat.
Proof.
  destruct (simple_create_failure_stops_the_build (Mock.lib [Mock.pentagon])
              (Mock.world (ScriptFixtures.fail_scripts "bpy.ops.mesh") "imgs"
                 ["imgs/tree.png"])
              "imgs/tree.png" "christmas" "dance" [] Mock.blank
              (mock_fs_obeys _ _ _) eq_refl) as (e & He & _).
  - unfold ScriptFixtures.fail_scripts. rewrite mock_reply_choice. reflexivity.
  - exists e. eexists. split; [exact He | reflexivity].
Defined.


(** ** The life cycle of the connection *)

Lemma connects_of_app (a b : Trace) :
  Obs.connects_of (a ++ b) = (Obs.connects_of a + Obs.connects_of b)%nat.
Proof.
  induction a as [|e a IH]; [reflexivity|].
  destruct e; cbn; rewrite ?IH; reflexivity.
Qed.

Lemma closes_of_app (a b : Trace) :
  Obs.closes_of (a ++ b) = (Obs.closes_of a + Obs.closes_of b)%nat.
Proof.
  induction a as [|e a IH]; [reflexivity|].
  destruct e; cbn; rewrite ?IH; reflexivity.
Qed.

Section Steady.

Lemma steady_ret {A} (a : A) : Obs.steady (ret a).
Proof. intros s; reflexivity. Qed.

Lemma steady_raise {A} (c : ExnClass) (msg : string) : Obs.steady (@raise A c msg).
Proof. intros s; reflexivity. Qed.

Lemma steady_lift {A} (o : Outcome A) : Obs.steady (lift o).
Proof. intros s; reflexivity. Qed.

Lemma steady_get_trace : Obs.steady get_trace.
Proof. intros s; reflexivity. Qed.

Lemma steady_bind {A B} (m : M A) (k : A -> M B) :
  Obs.steady m -> (forall a, Obs.steady (k a)) -> Obs.steady (bind m k).
Proof.
  intros Hm Hk s. unfold bind. specialize (Hm s).
  destruct (m s) as [[a|e] s1]; cbn [snd] in *; [|exact Hm].
  rewrite (Hk a s1). exact Hm.
Qed.

Lemma steady_emit (ev : Event) :
  ev <> EConnect -> ev <> EClose -> Obs.steady (emit ev).
Proof.
  intros H1 H2 s. unfold emit, Obs.lifecycle; cbn [snd trace sock].
  rewrite connects_of_app, closes_of_app.
  destruct ev; try congruence; cbn; rewrite !Nat.add_0_r; reflexivity.
Qed.

Lemma steady_try_except {A} (body : M A) (handler : Exn -> M A) :
  Obs.steady body -> (forall e, Obs.steady (handler e)) ->
  Obs.steady (try_except body handler).
Proof.
  intros Hb Hh s. unfold try_except. specialize (Hb s).
  destruct (body s) as [[a|e] s1]; cbn [snd] in *; [exact Hb|].
  destruct (is_Exception (exn_class e)); [|exact Hb].
  rewrite (Hh e s1). exact Hb.
Qed.

Lemma steady_fs (W : World) (op : FsOp) : Obs.steady (fs W op).
Proof.
  unfold fs.
  apply steady_bind; [apply steady_get_trace | intros t].
  apply steady_bind; [apply steady_emit; discriminate | intros _].
  destruct (fs_error W t op); [apply steady_raise | apply steady_ret].
Qed.

Lemma steady_send (L : Lib) (W : World) (c : Command) :
  Obs.steady (Client.send_blender_command L W c).
Proof.
  intros [t k]. destruct k;
    try (rewrite send_not_connected by (cbn; discriminate); reflexivity).
  rewrite send_connected. unfold Obs.lifecycle; cbn [snd trace sock].
  rewrite connects_of_app, closes_of_app. cbn. rewrite !Nat.add_0_r. reflexivity.
Qed.

End Steady.

Ltac steady_step :=
  lazymatch goal with
  | |- Obs.steady (bind _ _) => apply steady_bind
  | |- Obs.steady (ret _) => apply steady_ret
  | |- Obs.steady (raise _ _) => apply steady_raise
  | |- Obs.steady (lift _) => apply steady_lift
  | |- Obs.steady get_trace => apply steady_get_trace
  | |- Obs.steady (emit _) => apply steady_emit; discriminate
  | |- Obs.steady (fs _ _) => apply steady_fs
  | |- Obs.steady (Client.send_blender_command _ _ _) => apply steady_send
  | |- Obs.steady (try_except _ _) => apply steady_try_except
  | |- Obs.steady (if ?b then _ else _) => destruct b
  | |- Obs.steady (match ?x with _ => _ end) => destruct x
  | |- forall _, _ => intros ?
  end.

Section LifeCycle.
Context (L : Lib) (W : World).

Lemma process_image_to_3d_steady (image_path theme kind : string) :
  Obs.steady (ImageTo3DPipeline.process_image_to_3d L W image_path theme kind).
Proof.
  unfold ImageTo3DPipeline.process_image_to_3d, Classifier.analyze_image,
    ImageTo3DPipeline.create_3d_model_from_image,
    ImageTo3DPipeline.apply_image_texture, ImageTo3DPipeline.apply_material_color,
    ImageTo3DPipeline.add_animations, ImageTo3DPipeline.add_dance_animation,
    ImageTo3DPipeline.add_bounce_animation, ImageTo3DPipeline.add_spin_animation,
    ImageTo3DPipeline.add_pulse_animation, ImageTo3DPipeline.export_model,
    ImageTo3DPipeline.update_theme_config, ImageTo3DPipeline.load_theme_config,
    ImageTo3DPipeline.send_blender_command.
  repeat steady_step.
Qed.

Lemma process_image_to_3d_catchable (image_path theme kind : string) :
  Spec.raises_catchable
    (ImageTo3DPipeline.process_image_to_3d L W image_path theme kind).
Proof.
  unfold Spec.raises_catchable,
    ImageTo3DPipeline.process_image_to_3d, Classifier.analyze_image,
    ImageTo3DPipeline.create_3d_model_from_image,
    ImageTo3DPipeline.apply_image_texture, ImageTo3DPipeline.apply_material_color,
    ImageTo3DPipeline.add_animations, ImageTo3DPipeline.add_dance_animation,
    ImageTo3DPipeline.add_bounce_animation, ImageTo3DPipeline.add_spin_animation,
    ImageTo3DPipeline.add_pulse_animation, ImageTo3DPipeline.export_model,
    ImageTo3DPipeline.update_theme_config, ImageTo3DPipeline.load_theme_config,
    ImageTo3DPipeline.send_blender_command.
  respect.
Qed.

Lemma swift_steady (theme model : string) :
  Obs.steady (ImageTo3DPipeline.create_swift_integration L W theme model).
Proof. unfold ImageTo3DPipeline.create_swift_integration. repeat steady_step. Qed.

Lemma swift_catchable (theme model : string) :
  Spec.raises_catchable (ImageTo3DPipeline.create_swift_integration L W theme model).
Proof.
  unfold Spec.raises_catchable, ImageTo3DPipeline.create_swift_integration.
  respect.
Qed.

Lemma batch_loop_steady (theme : string) (files : list string) :
  forall results, Obs.steady (ImageTo3DPipeline.batch_loop L W files theme results).
Proof.
  induction files as [|f files IH]; intros results;
    cbn [ImageTo3DPipeline.batch_loop].
  - apply steady_ret.
  - unfold ImageTo3DPipeline.job.
    repeat first [ apply IH | apply process_image_to_3d_steady
                 | apply swift_steady | steady_step ].
Qed.

Lemma process_batch_images_steady (folder theme : string) :
  Obs.steady (ImageTo3DPipeline.process_batch_images L W folder theme).
Proof.
  unfold ImageTo3DPipeline.process_batch_images, ImageTo3DPipeline.exists_,
    ImageTo3DPipeline.list_glob.
  repeat first [ apply batch_loop_steady | steady_step ].
Qed.

Lemma batch_loop_catchable (theme : string) (files : list string) :
  forall results,
    Spec.raises_catchable (ImageTo3DPipeline.batch_loop L W files theme results).
Proof.
  unfold Spec.raises_catchable.
  induction files as [|f files IH]; intros results;
    cbn [ImageTo3DPipeline.batch_loop].
  - respect.
  - repeat first [ apply (job_raises_catchable L W) | apply IH | respect_step ].
Qed.

Lemma process_batch_images_catchable (folder theme : string) :
  Spec.raises_catchable (ImageTo3DPipeline.process_batch_images L W folder theme).
Proof.
  unfold Spec.raises_catchable, ImageTo3DPipeline.process_batch_images,
    ImageTo3DPipeline.exists_, ImageTo3DPipeline.list_glob.
  repeat first [ apply batch_loop_catchable | respect_step ].
Qed.

Lemma simple_process_steady (image_path theme kind : string) :
  Obs.steady (Simple3DPipeline.process_image_to_3d L W image_path theme kind).
Proof.
  unfold Simple3DPipeline.process_image_to_3d, Classifier.analyze_image,
    Simple3DPipeline.create_3d_model_from_image, Simple3DPipeline.add_animations,
    Simple3DPipeline.export_model, Simple3DPipeline.export_as_glb,
    Simple3DPipeline.send_blender_command, Simple3DPipeline.failed.
  repeat steady_step.
Qed.

Lemma simple_process_catchable (image_path theme kind : string) :
  Spec.raises_catchable
    (Simple3DPipeline.process_image_to_3d L W image_path theme kind).
Proof.
  unfold Spec.raises_catchable,
    Simple3DPipeline.process_image_to_3d, Classifier.analyze_image,
    Simple3DPipeline.create_3d_model_from_image, Simple3DPipeline.add_animations,
    Simple3DPipeline.export_model, Simple3DPipeline.export_as_glb,
    Simple3DPipeline.send_blender_command, Simple3DPipeline.failed.
  respect.
Qed.

(** What [try: body / except Exception: report / finally: close] does on
    an open connection, for a body that leaves the connection alone. *)
Lemma guarded_body_closes (body : M unit) (s : State) :
  Spec.raises_catchable body -> Obs.steady body -> sock s = Connected ->
  try_finally (try_except body (fun _ => ret tt)) Client.close s
  = (Ret tt, mkState (trace (snd (body s)) ++ [EClose]) Closed).
Proof.
  intros Hc Hs Hk. unfold try_finally, try_except.
  pose proof (proj2 (Hc s)) as He. specialize (Hs s).
  destruct (body s) as [[[]|e] s1]; cbn [fst snd] in *.
  - unfold Obs.lifecycle in Hs. injection Hs as Hs _ _.
    unfold Client.close, bind, get_sock, emit, set_sock. cbn.
    rewrite Hs, Hk. reflexivity.
  - rewrite (He e eq_refl). cbn [ret].
    unfold Obs.lifecycle in Hs. injection Hs as Hs _ _.
    unfold Client.close, bind, get_sock, emit, set_sock. cbn.
    rewrite Hs, Hk. reflexivity.
Qed.

End LifeCycle.

(** ** The entry points *)

(** Counting the connection events of what a run appended. *)
Ltac count_events :=
  cbn [trace sock];
  rewrite ?connects_of_app, ?closes_of_app;
  cbn [Obs.connects_of Obs.closes_of];
  try solve [repeat split; lia].

Section EntryFacts.
Context (L : Lib) (W : World).

Lemma bind_unit_steady (m : M (list JSON)) :
  Obs.steady m -> Obs.steady (bind m (fun _ => ret tt)).
Proof. intros H. apply steady_bind; [exact H | intros _; apply steady_ret]. Qed.

Lemma bind_unit_catchable {A} (m : M A) :
  Spec.raises_catchable m -> Spec.raises_catchable (bind m (fun _ => ret tt)).
Proof.
  unfold Spec.raises_catchable. intros H.
  apply respects_bind; [respect_side | exact H | intros _; respect].
Qed.

(** What the connection attempt of an entry point leaves. *)
Lemma connect_run (t : Trace) (k : SockState) :
  Client.connect_to_blender W (mkState t k)
  = match connect_error W t with
    | Some _ => (Ret false, mkState (t ++ [EConnect]) Unconnected)
    | None => (Ret true, mkState (t ++ [EConnect]) Connected)
    end.
Proof.
  unfold Client.connect_to_blender, try_except, set_sock. run.
  destruct (connect_error W t); run; reflexivity.
Qed.

(** X13.  [batch_process] never raises and never leaves a connection
    open: from a fresh process it returns normally, having either not
    tried to connect at all, or tried once and been refused, or connected
    once and closed once, whatever happened in the batch in between. *)
Theorem batch_process_closes_what_it_opens (argv : list string) (t : Trace) :
  exists s',
    ProcessImages.batch_process L W argv (mkState t NoSocket) = (Ret tt, s') /\
    match sock s' with
    | NoSocket =>
        Obs.connects_of (trace s') = Obs.connects_of t /\
        Obs.closes_of (trace s') = Obs.closes_of t
    | Unconnected =>
        Obs.connects_of (trace s') = S (Obs.connects_of t) /\
        Obs.closes_of (trace s') = Obs.closes_of t
    | Closed =>
        Obs.connects_of (trace s') = S (Obs.connects_of t) /\
        Obs.closes_of (trace s') = S (Obs.closes_of t)
    | Connected => False
    end.
Proof.
  unfold ProcessImages.batch_process.
  destruct (List.length argv <? 3)%nat.
  { eexists; split; [reflexivity|]. split; reflexivity. }
  match goal with |- context [try_finally (try_except ?b ?h) ?c] =>
    assert (Hst : Obs.steady b)
      by apply bind_unit_steady, process_batch_images_steady;
    assert (Hca : Spec.raises_catchable b)
      by apply bind_unit_catchable, process_batch_images_catchable;
    pose proof (fun s => guarded_body_closes b s Hca Hst) as Hg;
    set (guarded := try_finally (try_except b h) c) in *
  end.
  unfold ImageTo3DPipeline.exists_, ImageTo3DPipeline.list_glob. run.
  destruct (path_exists W _ _); cbn [negb]; run.
  2: { eexists; split; [reflexivity|]. count_events. }
  match goal with |- context [match ?l with [] => _ | _ => _ end] =>
    destruct l end.
  { eexists; split; [reflexivity|]. count_events. }
  unfold set_sock. run. rewrite connect_run.
  destruct (connect_error W _); run; cbn [negb].
  { eexists; split; [reflexivity|]. count_events. }
  rewrite Hg by reflexivity.
  eexists; split; [reflexivity|]. cbn [sock trace].
  match goal with |- context [snd (_ ?s0)] => pose proof (Hst s0) as Hl end.
  unfold Obs.lifecycle in Hl. injection Hl as _ Hc Hd.
  rewrite connects_of_app, closes_of_app, Hc, Hd. cbn [trace].
  rewrite !connects_of_app, !closes_of_app. cbn. lia.
Qed.

(** X14.  [main] of [process_images.py] never raises and never leaves a
    connection open: it has not tried to connect, or tried once and been
    refused, or connected once and closed once; and it does not even try
    to connect when the image is missing or its suffix is none of [.png],
    [.jpg], [.jpeg]. *)
Theorem process_images_main_closes_what_it_opens
  (suffix_lower : string -> string) (argv : list string) (t : Trace) :
  exists s',
    EntryPoints.process_images_main L W suffix_lower argv (mkState t NoSocket)
    = (Ret tt, s') /\
    match sock s' with
    | NoSocket =>
        Obs.connects_of (trace s') = Obs.connects_of t /\
        Obs.closes_of (trace s') = Obs.closes_of t
    | Unconnected =>
        Obs.connects_of (trace s') = S (Obs.connects_of t) /\
        Obs.closes_of (trace s') = Obs.closes_of t
    | Closed =>
        Obs.connects_of (trace s') = S (Obs.connects_of t) /\
        Obs.closes_of (trace s') = S (Obs.closes_of t)
    | Connected => False
    end /\
    (path_exists W t (EntryPoints.argv_get argv 1) = false \/
     existsb (String.eqb (suffix_lower (EntryPoints.argv_get argv 1)))
       [".png"; ".jpg"; ".jpeg"] = false ->
     sock s' = NoSocket).
Proof.
  unfold EntryPoints.process_images_main.
  destruct (List.length argv <? 2)%nat.
  { eexists; split; [reflexivity|]. split; [split; reflexivity | reflexivity]. }
  match goal with |- context [try_finally (try_except ?b ?h) ?c] =>
    assert (Hst : Obs.steady b)
      by (apply steady_bind;
          [apply process_image_to_3d_steady | intros _; apply swift_steady]);
    assert (Hca : Spec.raises_catchable b)
      by (unfold Spec.raises_catchable; apply respects_bind;
          [ respect_side | apply process_image_to_3d_catchable
          | intros _; apply swift_catchable ]);
    pose proof (fun s => guarded_body_closes b s Hca Hst) as Hg;
    set (guarded := try_finally (try_except b h) c) in *
  end.
  unfold ImageTo3DPipeline.exists_. run.
  destruct (path_exists W t _) eqn:Ep; cbn [negb]; run.
  2: { eexists; split; [reflexivity|]. split; [count_events | reflexivity]. }
  destruct (existsb _ _) eqn:Es; cbn [negb]; run.
  2: { eexists; split; [reflexivity|]. split; [count_events | reflexivity]. }
  unfold set_sock. run. rewrite connect_run.
  destruct (connect_error W _); run; cbn [negb].
  { eexists; split; [reflexivity|]. split.
    - count_events.
    - intros [H|H]; discriminate H. }
  rewrite Hg by reflexivity.
  eexists; split; [reflexivity|]. cbn [sock trace]. split.
  - match goal with |- context [snd (_ ?s0)] => pose proof (Hst s0) as Hl end.
    unfold Obs.lifecycle in Hl. injection Hl as _ Hc Hd.
    rewrite connects_of_app, closes_of_app, Hc, Hd. cbn [trace].
    rewrite !connects_of_app, !closes_of_app. cbn. lia.
  - intros [H|H]; discriminate H.
Qed.

(** X15.  [main] of [simple_3d_pipeline.py] never raises either: it tries
    to connect once and, when connected, closes once, whether the
    Christmas tree image is there, builds, or fails. *)
Theorem simple_main_closes_what_it_opens (t : Trace) (k : SockState) :
  exists s',
    EntryPoints.simple_main L W (mkState t k) = (Ret tt, s') /\
    Obs.connects_of (trace s') = S (Obs.connects_of t) /\
    match connect_error W t with
    | Some _ => sock s' = Unconnected /\ Obs.closes_of (trace s') = Obs.closes_of t
    | None => sock s' = Closed /\ Obs.closes_of (trace s') = S (Obs.closes_of t)
    end.
Proof.
  unfold EntryPoints.simple_main.
  match goal with |- context [try_finally (try_except ?b ?h) ?c] =>
    assert (Hst : Obs.steady b)
      by (unfold ImageTo3DPipeline.exists_;
          repeat first [ apply simple_process_steady | steady_step ]);
    assert (Hca : Spec.raises_catchable b)
      by (unfold Spec.raises_catchable, ImageTo3DPipeline.exists_;
          repeat first [ apply simple_process_catchable | respect_step ]);
    pose proof (fun s => guarded_body_closes b s Hca Hst) as Hg;
    set (guarded := try_finally (try_except b h) c) in *
  end.
  unfold set_sock. run. rewrite connect_run.
  destruct (connect_error W t); run; cbn [negb].
  { eexists; split; [reflexivity|]. count_events. }
  rewrite Hg by reflexivity.
  eexists; split; [reflexivity|]. cbn [sock trace].
  match goal with |- context [snd (_ ?s0)] => pose proof (Hst s0) as Hl end.
  unfold Obs.lifecycle in Hl. injection Hl as _ Hc Hd.
  rewrite connects_of_app, closes_of_app, Hc, Hd. cbn [trace].
  rewrite !connects_of_app, !closes_of_app. cbn. repeat split; lia.
Qed.

(** X16.  A folder that holds only [*.jpeg] files passes the check of
    [batch_process], which counts them, and is then refused by
    [process_batch_images], which globs [*.png] and [*.jpg] only: the
    connection is opened and closed for nothing, no image is analysed and
    no command is written. *)
Theorem jpeg_only_folder_is_never_processed
  (argv : list string) (t : Trace) :
  (3 <= List.length argv)%nat ->
  let folder := ProcessImages.argv_get argv 2 in
  (forall u, path_exists W u folder = true) ->
  (forall u, glob W u folder "*.png" = []) ->
  (forall u, glob W u folder "*.jpg" = []) ->
  (forall u, glob W u folder "*.jpeg" <> []) ->
  (forall u, connect_error W u = None) ->
  exists s',
    ProcessImages.batch_process L W argv (mkState t NoSocket) = (Ret tt, s') /\
    sock s' = Closed /\
    Obs.connects_of (trace s') = S (Obs.connects_of t) /\
    Spec.analyses_of (trace s') = Spec.analyses_of t /\
    commands_of (trace s') = commands_of t.
Proof.
  intros Hn folder He Hpng Hjpg Hjpeg Hc. subst folder.
  unfold ProcessImages.batch_process.
  apply Nat.ltb_ge in Hn. rewrite Hn.
  unfold ImageTo3DPipeline.exists_, ImageTo3DPipeline.list_glob. run.
  rewrite He. cbn [negb]. run. rewrite Hpng, Hjpg. cbn [app].
  match goal with |- context [glob W ?u _ "*.jpeg"] =>
    specialize (Hjpeg u); destruct (glob W u _ "*.jpeg"); [congruence|] end.
  unfold set_sock. run. rewrite connect_run, Hc. run. cbn [negb].
  unfold try_finally, try_except, ImageTo3DPipeline.process_batch_images,
    ImageTo3DPipeline.exists_, ImageTo3DPipeline.list_glob.
  run. rewrite He. cbn [negb]. run. rewrite Hpng, Hjpg. cbn [app]. run.
  cbn [is_Exception exn_class]. run.
  unfold Client.close. run.
  eexists; split; [reflexivity|]. cbn [sock trace].
  split; [reflexivity|].
  rewrite !connects_of_app, !analyses_of_app, !commands_of_app. cbn.
  rewrite !app_nil_r. repeat split; lia.
Qed.

(** X17.  [process_batch_images] refuses a folder that does not exist and
    a folder without [*.png] and [*.jpg] files with a [ValueError], before
    any image is analysed and any command written. *)
Theorem process_batch_images_rejects_unusable_folders
  (image_folder theme : string) (s : State) :
  let t1 := trace s ++ [EExists image_folder] in
  path_exists W (trace s) image_folder = false \/
  glob W t1 image_folder "*.png"
    ++ glob W (t1 ++ [EGlob image_folder "*.png"]) image_folder "*.jpg" = [] ->
  exists msg s',
    ImageTo3DPipeline.process_batch_images L W image_folder theme s
    = (Raise (mkExn ValueError msg), s') /\
    sock s' = sock s /\
    Spec.analyses_of (trace s') = Spec.analyses_of (trace s) /\
    commands_of (trace s') = commands_of (trace s).
Proof.
  intros t1 H.
  unfold ImageTo3DPipeline.process_batch_images, ImageTo3DPipeline.exists_,
    ImageTo3DPipeline.list_glob. run.
  destruct (path_exists W (trace s) image_folder); cbn [negb]; run.
  - destruct H as [H|H]; [discriminate H|]. subst t1. rewrite H. run.
    eexists _, _. split; [reflexivity|]. cbn [sock trace].
    split; [reflexivity|].
    rewrite !analyses_of_app, !commands_of_app. cbn. rewrite !app_nil_r.
    split; reflexivity.
  - eexists _, _. split; [reflexivity|]. cbn [sock trace].
    split; [reflexivity|].
    rewrite !analyses_of_app, !commands_of_app. cbn. rewrite !app_nil_r.
    split; reflexivity.
Qed.

(** X18.  [connect_to_blender] never raises: it tries once, answers
    [True] with the socket connected when the peer accepts, and [False]
    with the socket left unconnected when it refuses, after which a
    command sent all the same returns [None] and writes nothing. *)
Theorem connect_to_blender_reports_the_outcome (s : State) (c : Command) :
  exists ok s',
    Client.connect_to_blender W s = (Ret ok, s') /\
    trace s' = trace s ++ [EConnect] /\
    (ok = true <-> connect_error W (trace s) = None) /\
    (ok = true -> sock s' = Connected) /\
    (ok = false ->
     sock s' = Unconnected /\
     Client.send_blender_command L W c s' = (Ret JNull, s')).
Proof.
  destruct s as [t k]. rewrite connect_run. cbn [trace].
  destruct (connect_error W t) eqn:E.
  - exists false. eexists. split; [reflexivity|]. split; [reflexivity|].
    split; [split; discriminate|]. split; [discriminate|].
    intros _. split; [reflexivity|].
    apply send_not_connected. cbn. discriminate.
  - exists true. eexists. split; [reflexivity|]. split; [reflexivity|].
    split; [split; reflexivity|]. split; [reflexivity | discriminate].
Qed.

End EntryFacts.

(** The witness of [jpeg_only_folder_is_never_processed]. *)
Lemma jpeg_only_folder_is_never_processed_witness :
  exists s',
    ProcessImages.batch_process (Mock.lib [Mock.pentagon])
      (Fixtures.jpeg_only "imgs" ["imgs/a.jpeg"]
         (Mock.world Mock.all_success "imgs" []))
      ["process_images.py"; "--batch"; "imgs"] (mkState [] NoSocket)
    = (Ret tt, s') /\
    sock s' = Closed /\
    Obs.connects_of (trace s') = 1%nat /\
    Spec.analyses_of (trace s') = [] /\
    commands_of (trace s') = [].
Proof.
  apply (jpeg_only_folder_is_never_processed (Mock.lib [Mock.pentagon])
           (Fixtures.jpeg_only "imgs" ["imgs/a.jpeg"]
              (Mock.world Mock.all_success "imgs" []))
           ["process_images.py"; "--batch"; "imgs"] []).
  - cbn. lia.
  - intros u. reflexivity.
  - intros u. reflexivity.
  - intros u. reflexivity.
  - intros u. cbn. discriminate.
  - intros u. reflexivity.
Defined.

(** The witness of [process_batch_images_rejects_unusable_folders]: a
    folder that is not there. *)
Lemma process_batch_images_rejects_unusable_folders_witness :
  exists msg s',
    ImageTo3DPipeline.process_batch_images (Mock.lib [])
      (Mock.world Mock.all_success "imgs" ["imgs/tree.png"])
      "nowhere" "christmas" (mkState [] Connected)
    = (Raise (mkExn ValueError msg), s') /\
    sock s' = Connected /\
    Spec.analyses_of (trace s') = [] /\
    commands_of (trace s') = [].
Proof.
  apply (process_batch_images_rejects_unusable_folders (Mock.lib [])
           (Mock.world Mock.all_success "imgs" ["imgs/tree.png"])
           "nowhere" "christmas" (mkState [] Connected)).
  left. reflexivity.
Defined.

(** ** The device loops of [create_medical_assets.py] *)

(** Evaluating what is closed in a goal about the device loops: the
    binding of keyword arguments and the comparisons of literals. *)
Ltac eval_closed :=
  repeat match goal with
    | |- context [MedicalAssets.bind_kwargs ?f ?sg ?kw] =>
        let r := eval vm_compute in (MedicalAssets.bind_kwargs f sg kw) in
        change (MedicalAssets.bind_kwargs f sg kw) with r
    | |- context [String.eqb ?a ?b] =>
        let r := eval vm_compute in (String.eqb a b) in
        change (String.eqb a b) with r
    end.

Section DeviceLoops.
Context (L : Lib) (W : World).
Import MedicalAssets.

Lemma succeeded_of_success (r : JSON) :
  Spec.answers_success r = true -> succeeded r = Ret true.
Proof.
  destruct r; cbn; try discriminate.
  destruct items as [|kv items]; [cbn; discriminate|].
  unfold succeeded; cbn [truthy get]. intros ->. reflexivity.
Qed.


(** X19.  As soon as the engine accepts the first device, the stethoscope,
    [create_medical_devices] dies of a [TypeError]: the material is passed
    with a key [name] that [apply_material] has no parameter for.  The
    cylinder is the only command written, nothing is exported, no delay
    is taken, and the connection is left open. *)
Theorem medical_devices_crash_on_first_success (t : Trace) (k : SockState) :
  let t1 := (t ++ [EConnect]) ++ [EFs (Makedirs output_dir)] in
  let create :=
    cylinder_command [("radius", JFloat 0.1%float); ("height", JFloat 0.8%float);
                      ("location", origin)] in
  connect_error W t = None ->
  fs_error W (t ++ [EConnect]) (Makedirs output_dir) = None ->
  Spec.answers_success (Client.reply L W t1 create) = true ->
  create_medical_devices L W (mkState t k)
  = (Raise (mkExn TypeError "apply_material() got an unexpected keyword argument"),
     mkState (t1 ++ [ESend create]) Connected).
Proof.
  intros t1 create Hc Hf Hs.
  unfold create_medical_devices, set_sock. run. rewrite connect_run, Hc. run.
  cbn [negb]. run. rewrite Hf. run.
  cbn [devices devices_loop]. unfold device_round, create_cylinder, send_command,
    apply_material.
  cbn [dev_type dev_params dev_material]. eval_closed. run.
  subst create t1. unfold origin in *.
  rewrite (succeeded_of_success _ Hs). run.
  reflexivity.
Qed.


(** X21.  [create_educational_models] unpacks its materials into
    [apply_material] too, key [name] included, and dies of the
    [TypeError] on the first model the engine accepts, the DNA helix: the
    cylinder is the only command written, nothing is exported and the
    connection is left open. *)
Theorem educational_models_crash_on_first_success (t : Trace) (k : SockState) :
  let t1 := (t ++ [EConnect]) ++ [EFs (Makedirs Educational.output_dir)] in
  let create :=
    cylinder_command [("radius", JFloat 0.1%float); ("height", JFloat 2.0%float);
                      ("location", origin)] in
  connect_error W t = None ->
  fs_error W (t ++ [EConnect]) (Makedirs Educational.output_dir) = None ->
  Spec.answers_success (Client.reply L W t1 create) = true ->
  Educational.create_educational_models L W (mkState t k)
  = (Raise (mkExn TypeError "apply_material() got an unexpected keyword argument"),
     mkState (t1 ++ [ESend create]) Connected).
Proof.
  intros t1 create Hc Hf Hs.
  unfold Educational.create_educational_models, set_sock. run.
  rewrite connect_run, Hc. run. cbn [negb]. run. rewrite Hf. run.
  cbn [Educational.models Educational.models_loop].
  unfold Educational.model_round, create_cylinder, send_command, apply_material.
  cbn [dev_type dev_params dev_material]. eval_closed. run.
  subst create t1. unfold origin in *.
  rewrite (succeeded_of_success _ Hs). run.
  reflexivity.
Qed.

(** X22.  Run as a script against an engine that accepts everything, the
    generator therefore produces nothing: after the test connection is
    opened and closed, the second connection sees the stethoscope
    cylinder, the script dies, and the educational models are never
    started. *)
Theorem asset_script_dies_before_any_export (t : Trace) (k : SockState) :
  Spec.always_success L W -> Spec.fs_obeys W ->
  (forall u, connect_error W u = None) ->
  exists s',
    Educational.script L W (mkState t k)
    = (Raise (mkExn TypeError "apply_material() got an unexpected keyword argument"),
       s') /\
    sock s' = Connected /\
    Obs.connects_of (trace s') = (Obs.connects_of t + 2)%nat /\
    Obs.closes_of (trace s') = (Obs.closes_of t + 1)%nat /\
    map cmd_type (commands_of (trace s'))
    = map cmd_type (commands_of t) ++ ["create_object"] /\
    Spec.sleeps_of (trace s') = Spec.sleeps_of t.
Proof.
  intros Hs Hf Hc.
  unfold Educational.script, set_sock. run. rewrite connect_run, Hc. run.
  unfold Client.close at 1. run.
  unfold create_medical_devices, set_sock. run. rewrite connect_run, Hc. run.
  cbn [negb]. run.
  cbn [devices devices_loop]. unfold device_round, create_cylinder, send_command,
    apply_material.
  cbn [dev_type dev_params dev_material]. eval_closed. run.
  rewrite (succeeded_of_success _ (Hs _ _)). run.
  eexists. split; [reflexivity|]. cbn [sock trace]. split; [reflexivity|].
  rewrite !connects_of_app, !closes_of_app, !commands_of_app, !sleeps_of_app,
    !map_app.
  cbn. rewrite !app_nil_r. repeat split; lia.
Qed.

End DeviceLoops.

(** ** The two export formats of [simple_3d_pipeline.py] *)

Section SimpleExport.
Context (L : Lib) (W : World).


End SimpleExport.


(** ** No delay anywhere in the image pipelines *)

Section NoDelay.
Context (L : Lib) (W : World) (suffix_lower : string -> string).

Lemma simple_process_sleepless (image_path theme kind : string) :
  Spec.sleepless (Simple3DPipeline.process_image_to_3d L W image_path theme kind).
Proof.
  unfold Spec.sleepless, Simple3DPipeline.process_image_to_3d,
    Classifier.analyze_image, Simple3DPipeline.create_3d_model_from_image,
    Simple3DPipeline.add_animations, Simple3DPipeline.export_model,
    Simple3DPipeline.export_as_glb, Simple3DPipeline.send_blender_command.
  respect.
Qed.

Lemma process_image_to_3d_sleepless (image_path theme kind : string) :
  Spec.sleepless (ImageTo3DPipeline.process_image_to_3d L W image_path theme kind).
Proof.
  unfold Spec.sleepless.
  unfold ImageTo3DPipeline.process_image_to_3d,
    Classifier.analyze_image, ImageTo3DPipeline.create_3d_model_from_image,
    ImageTo3DPipeline.apply_image_texture, ImageTo3DPipeline.apply_material_color,
    ImageTo3DPipeline.add_animations, ImageTo3DPipeline.add_dance_animation,
    ImageTo3DPipeline.add_bounce_animation, ImageTo3DPipeline.add_spin_animation,
    ImageTo3DPipeline.add_pulse_animation, ImageTo3DPipeline.export_model,
    ImageTo3DPipeline.update_theme_config, ImageTo3DPipeline.load_theme_config,
    ImageTo3DPipeline.send_blender_command.
  respect.
Qed.

Lemma swift_sleepless (theme model : string) :
  Spec.sleepless (ImageTo3DPipeline.create_swift_integration L W theme model).
Proof.
  unfold Spec.sleepless, ImageTo3DPipeline.create_swift_integration. respect.
Qed.

(** X24.  Neither script of the image pipelines ever waits: whatever the
    arguments, the files and the peer, a run of [process_images.py] (one
    image or [--batch]) and a run of [main()] of [simple_3d_pipeline.py]
    leave the calls of [time.sleep] as they found them.  The one-second
    delay exists only in the loops of [create_medical_assets.py]. *)
Theorem image_scripts_never_sleep (argv : list string) (s : State) :
  Spec.sleeps_of
    (trace (snd (EntryPoints.process_images_script L W suffix_lower argv s)))
  = Spec.sleeps_of (trace s) /\
  Spec.sleeps_of (trace (snd (EntryPoints.simple_main L W s)))
  = Spec.sleeps_of (trace s).
Proof.
  split.
  - enough (H : Spec.sleepless
                  (EntryPoints.process_images_script L W suffix_lower argv))
      by exact (proj1 (H s)).
    unfold Spec.sleepless, EntryPoints.process_images_script,
      EntryPoints.process_images_main, ProcessImages.batch_process,
      ImageTo3DPipeline.exists_, ImageTo3DPipeline.list_glob,
      Client.connect_to_blender, Client.close.
    repeat first [ apply process_batch_images_sleepless
                 | apply process_image_to_3d_sleepless
                 | apply swift_sleepless
                 | respect_step ].
  - enough (H : Spec.sleepless (EntryPoints.simple_main L W))
      by exact (proj1 (H s)).
    unfold Spec.sleepless, EntryPoints.simple_main, ImageTo3DPipeline.exists_,
      Client.connect_to_blender, Client.close.
    repeat first [ apply simple_process_sleepless | respect_step ].
Qed.

End NoDelay.

(** The witness of [medical_devices_crash_on_first_success]: a peer that
    accepts everything. *)
Lemma medical_devices_crash_on_first_success_witness :
  let create :=
    MedicalAssets.cylinder_command
      [("radius", JFloat 0.1%float); ("height", JFloat 0.8%float);
       ("location", MedicalAssets.origin)] in
  MedicalAssets.create_medical_devices (Mock.lib [])
    (Mock.world Mock.all_success "" []) (mkState [] NoSocket)
  = (Raise (mkExn TypeError "apply_material() got an unexpected keyword argument"),
     mkState
       ((([] ++ [EConnect]) ++ [EFs (Makedirs MedicalAssets.output_dir)])
          ++ [ESend create])
       Connected).
Proof.
  apply (medical_devices_crash_on_first_success (Mock.lib [])
           (Mock.world Mock.all_success "" []) [] NoSocket).
  - reflexivity.
  - reflexivity.
  - apply mock_always_success.
Defined.


(** The witness of [educational_models_crash_on_first_success]. *)
Lemma educational_models_crash_on_first_success_witness :
  let create :=
    MedicalAssets.cylinder_command
      [("radius", JFloat 0.1%float); ("height", JFloat 2.0%float);
       ("location", MedicalAssets.origin)] in
  Educational.create_educational_models (Mock.lib [])
    (Mock.world Mock.all_success "" []) (mkState [] NoSocket)
  = (Raise (mkExn TypeError "apply_material() got an unexpected keyword argument"),
     mkState
       ((([] ++ [EConnect]) ++ [EFs (Makedirs Educational.output_dir)])
          ++ [ESend create])
       Connected).
Proof.
  apply (educational_models_crash_on_first_success (Mock.lib [])
           (Mock.world Mock.all_success "" []) [] NoSocket).
  - reflexivity.
  - reflexivity.
  - apply mock_always_success.
Defined.

(** The witness of [asset_script_dies_before_any_export]. *)
Lemma asset_script_dies_before_any_export_witness :
  exists s',
    Educational.script (Mock.lib []) (Mock.world Mock.all_success "" [])
      (mkState [] NoSocket)
    = (Raise (mkExn TypeError "apply_material() got an unexpected keyword argument"),
       s') /\
    sock s' = Connected /\
    Obs.connects_of (trace s') = 2%nat /\
    Obs.closes_of (trace s') = 1%nat /\
    map cmd_type (commands_of (trace s')) = [] ++ ["create_object"] /\
    Spec.sleeps_of (trace s') = [].
Proof.
  apply (asset_script_dies_before_any_export (Mock.lib [])
           (Mock.world Mock.all_success "" []) [] NoSocket).
  - apply mock_always_success.
  - apply mock_fs_obeys.
  - intros u. reflexivity.
Defined.
